(** * send_sms.py: a shallow embedding and its verified properties

    The program sends one SMS through Twilio: [main] merges the command line
    with the environment, refuses to go on without credentials, tries the
    [twilio] package ([send_with_twilio]) and, when that raises [ImportError],
    posts to the REST endpoint with [requests] ([send_with_requests]).

    Everything the program does to the outside (imports, the SDK calls, the
    HTTP request, what it prints) is recorded in a trace, and everything the
    outside answers is read from a [World].  Python exceptions are values of
    [exn] with their class, so that [except ImportError] and
    [except Exception] select what they select in Python. *)

From stdpp Require Import base option list strings gmap pretty.
From Stdlib Require Import ZArith Lia.

Local Open Scope string_scope.
Local Open Scope Z_scope.
Local Open Scope list_scope.

(** ** Python values *)

(** The values the credential variables range over: argparse leaves an
    absent optional flag at [None], and [os.getenv] returns [None] for an
    unset variable; otherwise both give a [str]. *)
Inductive val : Type :=
  | VNone
  | VStr (s : string).

#[global] Instance val_eq_dec : EqDecision val.
Proof. solve_decision. Defined.

(** Python truthiness: [None] and the empty string are falsy. *)
Definition truthy (v : val) : bool :=
  match v with
  | VNone => false
  | VStr s => negb (String.eqb s EmptyString)
  end.

(** [a or b] *)
Definition py_or (a b : val) : val := if truthy a then a else b.

(** [a and b] *)
Definition py_and (a b : val) : val := if truthy a then b else a.

(** What [f"{v}"] writes for [v]. *)
Definition format_val (v : val) : string :=
  match v with
  | VNone => "None"
  | VStr s => s
  end.

(** Parsed JSON, as [resp.json()] returns it. *)
#[local] Unset Elimination Schemes.
Inductive json : Type :=
  | JNull
  | JBool (b : bool)
  | JNum (n : Z)
  | JStr (s : string)
  | JArr (l : list json)
  | JObj (l : list (string * json)).
#[local] Set Elimination Schemes.

(** ** Exceptions *)

(** The classes of the exceptions the program meets.  [Subclass n b] is a
    class named [n] that derives from [b] (the SDK's and requests' own
    exception classes). *)
Inductive pyclass : Type :=
  | BaseException
  | SystemExit
  | KeyboardInterrupt
  | Exception
  | ImportError
  | ModuleNotFoundError
  | Subclass (name : string) (base : pyclass).

#[global] Instance pyclass_eq_dec : EqDecision pyclass.
Proof. solve_decision. Defined.

(** The class and its ancestors, nearest first. *)
Fixpoint mro (c : pyclass) : list pyclass :=
  c :: match c with
       | BaseException => []
       | SystemExit | KeyboardInterrupt | Exception => [BaseException]
       | ImportError => [Exception; BaseException]
       | ModuleNotFoundError => [ImportError; Exception; BaseException]
       | Subclass _ b => mro b
       end.

Definition issubclass (c d : pyclass) : bool := bool_decide (d ∈ mro c).

(** An exception object.  [MkExn] is an exception built from a message:
    its class, its message ([str(e)]) and its [__cause__], set by
    [raise ... from e].  [MkSystemExit] is a [SystemExit] whose code is
    [None] (also [SystemExit()], [sys.exit()]) or an integer; a
    [SystemExit] whose code is a string is a [MkExn] of class [SystemExit],
    the string being its message. *)
#[local] Unset Elimination Schemes.
Inductive exn : Type :=
  | MkExn (cls : pyclass) (msg : string) (cause : option exn)
  | MkSystemExit (code : option Z) (cause : option exn).
#[local] Set Elimination Schemes.

Definition exn_class (e : exn) : pyclass :=
  match e with
  | MkExn c _ _ => c
  | MkSystemExit _ _ => SystemExit
  end.

Definition exn_str (e : exn) : string :=
  match e with
  | MkExn _ m _ => m
  | MkSystemExit None _ => EmptyString
  | MkSystemExit (Some n) _ => pretty n
  end.

Definition exn_cause (e : exn) : option exn :=
  match e with
  | MkExn _ _ c => c
  | MkSystemExit _ c => c
  end.

Definition isinstance (e : exn) (c : pyclass) : bool :=
  issubclass (exn_class e) c.

(** ** The outside world *)

(** The message object [client.messages.create] returns. *)
Record message : Type := Message {
  sid : val;
  status : val
}.

(** What [requests.post] returns: the fields of [requests.Response] the
    program reads, directly or through [raise_for_status]. *)
Record response : Type := Response {
  status_code : Z;
  reason : string;
  resp_url : string;
  resp_json : exn + json      (* what [resp.json()] does *)
}.

(** The answers of everything outside the program.  Each call either
    raises or returns. *)
Record World : Type := {
  (** [from twilio.rest import Client] *)
  import_twilio : option exn;
  (** [Client(account_sid, auth_token)] *)
  client_init : val -> val -> option exn;
  (** [client.messages.create(body=, from_=, to=)] *)
  messages_create : val -> val -> val -> exn + message;
  (** [import requests] *)
  import_requests : option exn;
  (** [requests.post(url, data=, auth=, timeout=)] *)
  requests_post :
    string -> list (string * val) -> val * val -> Z -> exn + response
}.

(** One argument of [print]. *)
Inductive printed : Type :=
  | PStr (s : string)
  | PDict (d : list (string * val))
  | PJson (j : json).

(** What the program does to the outside, in order. *)
Inductive event : Type :=
  | EvImportTwilio
  | EvClient (account_sid auth_token : val)
  | EvMessagesCreate (body from_ to : val)
  | EvImportRequests
  | EvPost (url : string) (data : list (string * val))
           (auth : val * val) (timeout : Z)
  | EvPrint (args : list printed).

Definition trace : Type := list event.

(** ** Running Python: a trace and an exception *)

(** How a call ends. *)
Inductive result (A : Type) : Type :=
  | Returns (a : A)
  | Raises (e : exn).
Arguments Returns {A} a.
Arguments Raises {A} e.

(** A computation extends the trace and returns or raises. *)
Definition M (A : Type) : Type := trace -> result A * trace.

Definition ret {A} (a : A) : M A := fun t => (Returns a, t).

Definition raise {A} (e : exn) : M A := fun t => (Raises e, t).

Definition bind {A B} (m : M A) (f : A -> M B) : M B :=
  fun t =>
    match m t with
    | (Returns a, t') => f a t'
    | (Raises e, t') => (Raises e, t')
    end.

#[global] Instance M_ret : MRet M := @ret.
#[global] Instance M_bind : MBind M := fun A B f m => bind m f.

Definition emit (ev : event) : M unit := fun t => (Returns tt, t ++ [ev]).

(** The outside answers a call that returns nothing... *)
Definition answer_unit (o : option exn) : M unit :=
  match o with
  | None => ret tt
  | Some e => raise e
  end.

(** ... or one that returns a value. *)
Definition answer {A} (o : exn + A) : M A :=
  match o with
  | inl e => raise e
  | inr a => ret a
  end.

(** [except C as e: h e]: the clauses of a [try], in order. *)
Definition clause (A : Type) : Type := pyclass * (exn -> M A).

Fixpoint select_clause {A} (cs : list (clause A)) (e : exn)
  : option (exn -> M A) :=
  match cs with
  | [] => None
  | (c, h) :: cs' => if isinstance e c then Some h else select_clause cs' e
  end.

(** [try: m  except ...]: the first clause whose class the exception is an
    instance of handles it; with none, it goes on up. *)
Definition try_except {A} (m : M A) (cs : list (clause A)) : M A :=
  fun t =>
    match m t with
    | (Returns a, t') => (Returns a, t')
    | (Raises e, t') =>
        match select_clause cs e with
        | Some h => h e t'
        | None => (Raises e, t')
        end
    end.

Definition print (args : list printed) : M unit := emit (EvPrint args).

(** [sys.exit(msg)] raises [SystemExit(msg)]. *)
Definition sys_exit {A} (msg : string) : M A :=
  raise (MkExn SystemExit msg None).

(** ** The program *)

Section Program.

Variable w : World.

(** [send_with_twilio], lines 26-33. *)
Definition send_with_twilio
    (account_sid auth_token from_number to_number body : val)
  : M (list (string * val)) :=
  try_except
    (emit EvImportTwilio;; answer_unit (import_twilio w))
    [(Exception, fun e =>
        raise (MkExn ImportError "twilio package not installed" (Some e)))];;
  emit (EvClient account_sid auth_token);;
  answer_unit (client_init w account_sid auth_token);;
  emit (EvMessagesCreate body from_number to_number);;
  message ← answer (messages_create w body from_number to_number);
  ret [("sid", sid message); ("status", status message)].

(** [requests.Response.raise_for_status], as the requests library has it:
    an [HTTPError] for the status codes 400 to 599. *)
Definition HTTPError : pyclass :=
  Subclass "HTTPError" (Subclass "RequestException"
    (Subclass "OSError" Exception)).

Definition http_error_msg (resp : response) : string :=
  if bool_decide (400 <= status_code resp < 500) then
    pretty (status_code resp) +:+ " Client Error: " +:+ reason resp
      +:+ " for url: " +:+ resp_url resp
  else if bool_decide (500 <= status_code resp < 600) then
    pretty (status_code resp) +:+ " Server Error: " +:+ reason resp
      +:+ " for url: " +:+ resp_url resp
  else EmptyString.

Definition raise_for_status (resp : response) : M unit :=
  if truthy (VStr (http_error_msg resp))
  then raise (MkExn HTTPError (http_error_msg resp) None)
  else ret tt.

(** [send_with_requests], lines 35-46. *)
Definition send_with_requests
    (account_sid auth_token from_number to_number body : val) : M json :=
  emit EvImportRequests;; answer_unit (import_requests w);;
  let url := "https://api.twilio.com/2010-04-01/Accounts/"
               +:+ format_val account_sid +:+ "/Messages.json" in
  let payload := [("From", from_number); ("To", to_number); ("Body", body)] in
  emit (EvPost url payload (account_sid, auth_token) 30);;
  resp ← answer (requests_post w url payload (account_sid, auth_token) 30);
  raise_for_status resp;;
  answer (resp_json resp).

(** The namespace [parse_args] returns (lines 48-55): [--to] and [--body]
    are required and hold a [str]; the three optional flags hold [None]
    when they are not given. *)
Record Namespace : Type := {
  args_to : string;
  args_body : string;
  args_account_sid : val;
  args_auth_token : val;
  args_from_number : val
}.

(** [os.getenv] *)
Definition getenv (environ : gmap string string) (k : string) : val :=
  match environ !! k with
  | Some s => VStr s
  | None => VNone
  end.

Definition missing_credentials : string :=
  "Missing credentials. Set TWILIO_ACCOUNT_SID, TWILIO_AUTH_TOKEN, and TWILIO_FROM env vars or pass them via CLI.".

(** Lines 59-61: the three credentials after the merge. *)
Definition resolve_account_sid environ args : val :=
  py_or (args_account_sid args) (getenv environ "TWILIO_ACCOUNT_SID").
Definition resolve_auth_token environ args : val :=
  py_or (args_auth_token args) (getenv environ "TWILIO_AUTH_TOKEN").
Definition resolve_from_number environ args : val :=
  py_or (args_from_number args) (getenv environ "TWILIO_FROM").

(** Lines 73-81: the body of [except ImportError:], the HTTP fallback. *)
Definition except_ImportError
    (account_sid auth_token from_number to_number body : val) : M unit :=
  print [PStr "twilio package not installed; attempting HTTP fallback using requests."];;
  try_except
    (result ← send_with_requests account_sid auth_token from_number
                                 to_number body;
     print [PStr "Sent via HTTP API. Response:"];;
     print [PJson result])
    [(Exception, fun e =>
        print [PStr "Failed to send message via HTTP API:"; PStr (exn_str e)];;
        raise e)].

(** Lines 82-84: the body of the outer [except Exception as e:]. *)
Definition except_Exception (e : exn) : M unit :=
  print [PStr "Failed to send via twilio package:"; PStr (exn_str e)];;
  raise e.

(** [main], lines 57-84, after [parse_args] has returned [args]. *)
Definition main (environ : gmap string string) (args : Namespace) : M unit :=
  let account_sid := resolve_account_sid environ args in
  let auth_token := resolve_auth_token environ args in
  let from_number := resolve_from_number environ args in
  if negb (truthy (py_and (py_and account_sid auth_token) from_number)) then
    sys_exit missing_credentials
  else
    let to_number := VStr (args_to args) in
    let body := VStr (args_body args) in
    try_except
      (result ← send_with_twilio account_sid auth_token from_number
                                 to_number body;
       print [PStr "Sent via twilio package. Result:"; PDict result])
      [(ImportError, fun _ =>
          except_ImportError account_sid auth_token from_number
                             to_number body);
       (Exception, except_Exception)].

(** ** The process *)

(** What the interpreter writes on stderr when [main] ends. *)
Inductive stderr_output : Type :=
  | ErrNothing
  | ErrMessage (msg : string)       (* the argument of [sys.exit] *)
  | ErrTraceback (e : exn).         (* an exception nobody caught *)

Record process : Type := {
  proc_trace : trace;
  proc_stderr : stderr_output;
  proc_status : Z
}.

(** The status a process ends with after [exit(n)] for a code [n] of
    [SystemExit]: the interpreter converts the integer to a C [long] (and
    takes -1 when it does not fit) and the system keeps the low eight
    bits. *)
Definition exit_byte (n : Z) : Z :=
  if bool_decide (- 2 ^ 63 <= n < 2 ^ 63) then n mod 256 else 255.

(** The interpreter around [main].  A return is status 0.  A [SystemExit]
    ends the process without a traceback: with no code or [None], status
    0; with an integer, the status of that integer; with a string, the
    string on stderr and status 1.  Any other exception gives a traceback
    and a status that is not 0. *)
Definition exit_of (r : result unit) : stderr_output * Z :=
  match r with
  | Returns _ => (ErrNothing, 0)
  | Raises (MkSystemExit None _) => (ErrNothing, 0)
  | Raises (MkSystemExit (Some n) _) => (ErrNothing, exit_byte n)
  | Raises (MkExn c msg _ as e) =>
      if issubclass c SystemExit then (ErrMessage msg, 1)
      else if issubclass c KeyboardInterrupt then (ErrTraceback e, 130)
      else (ErrTraceback e, 1)
  end.

Definition run (environ : gmap string string) (args : Namespace) : process :=
  let '(r, t) := main environ args [] in
  {| proc_trace := t; proc_stderr := fst (exit_of r);
     proc_status := snd (exit_of r) |}.

(** [main] from its first line (58): [parse_args()] returns the namespace
    or raises; argparse leaves with [SystemExit], code 0 after [-h] and
    code 2 after an error of usage. *)
Definition main_entry (environ : gmap string string)
    (parsed : exn + Namespace) : M unit :=
  args ← answer parsed;
  main environ args.

End Program.

(** ** Reading a trace *)

(** The HTTP requests of a trace. *)
Definition is_post (ev : event) : bool :=
  match ev with
  | EvPost _ _ _ _ => true
  | _ => false
  end.

Definition posts (t : trace) : list event := List.filter is_post t.

(** The calls that go to the network: the SDK's message creation and the
    HTTP request. *)
Definition is_network_call (ev : event) : bool :=
  match ev with
  | EvMessagesCreate _ _ _ | EvPost _ _ _ _ => true
  | _ => false
  end.

(** The fallback was entered: [send_with_requests] starts with its import. *)
Definition is_fallback_event (ev : event) : bool :=
  match ev with
  | EvImportRequests | EvPost _ _ _ _ => true
  | _ => false
  end.

Definition fallback_attempted (t : trace) : bool := existsb is_fallback_event t.

(** [needle] occurs in [hay]. *)
Definition mentions (needle hay : string) : bool :=
  match String.index 0 needle hay with
  | Some _ => true
  | None => false
  end.

(** A credential is empty: absent, or the empty string. *)
Definition is_empty (v : val) : Prop := v = VNone \/ v = VStr EmptyString.

(** The primary path as [main] runs it: [send_with_twilio] on the resolved
    credentials, from the empty trace. *)
Definition primary (w : World) (environ : gmap string string)
    (args : Namespace) : result (list (string * val)) * trace :=
  send_with_twilio w (resolve_account_sid environ args)
    (resolve_auth_token environ args) (resolve_from_number environ args)
    (VStr (args_to args)) (VStr (args_body args)) [].

(** The three credentials are there. *)
Definition credentials_ok (environ : gmap string string) (args : Namespace)
  : bool :=
  truthy (resolve_account_sid environ args)
  && truthy (resolve_auth_token environ args)
  && truthy (resolve_from_number environ args).

(** The request of the fallback path, as the specification words it: the
    endpoint of the account, the form fields From, To and Body, the account
    id and the auth token as Basic credentials, 30 seconds. *)
Definition fallback_url (environ : gmap string string) (args : Namespace)
  : string :=
  "https://api.twilio.com/2010-04-01/Accounts/"
    +:+ format_val (resolve_account_sid environ args) +:+ "/Messages.json".

Definition fallback_form (environ : gmap string string) (args : Namespace)
  : list (string * val) :=
  [("From", resolve_from_number environ args);
   ("To", VStr (args_to args));
   ("Body", VStr (args_body args))].

Definition fallback_auth (environ : gmap string string) (args : Namespace)
  : val * val :=
  (resolve_account_sid environ args, resolve_auth_token environ args).

Definition fallback_post (environ : gmap string string) (args : Namespace)
  : event :=
  EvPost (fallback_url environ args) (fallback_form environ args)
         (fallback_auth environ args) 30.

(** The fallback as [main] runs it: [send_with_requests], and the whole
    body of [except ImportError:], on the resolved credentials. *)
Definition secondary (w : World) (environ : gmap string string)
    (args : Namespace) : result json * trace :=
  send_with_requests w (resolve_account_sid environ args)
    (resolve_auth_token environ args) (resolve_from_number environ args)
    (VStr (args_to args)) (VStr (args_body args)) [].

Definition fallback (w : World) (environ : gmap string string)
    (args : Namespace) : result unit * trace :=
  except_ImportError w (resolve_account_sid environ args)
    (resolve_auth_token environ args) (resolve_from_number environ args)
    (VStr (args_to args)) (VStr (args_body args)) [].

(** A credential that is a string and not the empty one. *)
Definition non_empty (v : val) : Prop :=
  exists s, v = VStr s /\ s <> EmptyString.

(** [framed m]: running [m] from a trace [t] is running it from the empty
    trace and putting [t] in front. *)
Definition framed {A} (m : M A) : Prop :=
  forall t, m t = ((m []).1, t ++ (m []).2).

(** ** Concrete invocations *)

(** The command line of the specification's examples. *)
Definition spec_args : Namespace := {|
  args_to := "+15551234567";
  args_body := "Hello";
  args_account_sid := VStr "AC123";
  args_auth_token := VStr "tok";
  args_from_number := VStr "+15550000000"
|}.

(** Only [--to] and [--body] on the command line. *)
Definition bare_args : Namespace := {|
  args_to := "+15551234567";
  args_body := "Hello";
  args_account_sid := VNone;
  args_auth_token := VNone;
  args_from_number := VNone
|}.

(** [--account-sid], [--auth-token] and [--from] given as empty strings. *)
Definition empty_flag_args : Namespace := {|
  args_to := "+15551234567";
  args_body := "Hello";
  args_account_sid := VStr EmptyString;
  args_auth_token := VStr EmptyString;
  args_from_number := VStr EmptyString
|}.

(** The credentials on the command line, [--to] and [--body] empty. *)
Definition empty_message_args : Namespace := {|
  args_to := EmptyString;
  args_body := EmptyString;
  args_account_sid := VStr "AC123";
  args_auth_token := VStr "tok";
  args_from_number := VStr "+15550000000"
|}.

(** The three variables set in the environment. *)
Definition full_environ : gmap string string :=
  <["TWILIO_ACCOUNT_SID" := "ACenv"]>
    (<["TWILIO_AUTH_TOKEN" := "envtok"]>
       (<["TWILIO_FROM" := "+15557654321"]> ∅)).

Definition created_response (url : string) : response :=
  Response 201 "Created" url
    (inr (JObj [("sid", JStr "SM2"); ("status", JStr "sent")])).

Definition unauthorized_response (url : string) : response :=
  Response 401 "Unauthorized" url (inr (JObj [("code", JNum 20003)])).

(** The SDK is installed and queues the message. *)
Definition sdk_world : World := {|
  import_twilio := None;
  client_init := fun _ _ => None;
  messages_create := fun _ _ _ => inr (Message (VStr "SM1") (VStr "queued"));
  import_requests := None;
  requests_post := fun url _ _ _ => inr (created_response url)
|}.

(** The SDK is installed and the vendor rejects the recipient. *)
Definition rejected_world : World := {|
  import_twilio := None;
  client_init := fun _ _ => None;
  messages_create := fun _ _ _ =>
    inl (MkExn (Subclass "TwilioRestException"
                  (Subclass "TwilioException" Exception))
               "HTTP 400 error: Unable to create record" None);
  import_requests := None;
  requests_post := fun url _ _ _ => inr (created_response url)
|}.

(** The SDK is not installed; the endpoint answers with [resp]. *)
Definition no_sdk_world (resp : string -> response) : World := {|
  import_twilio :=
    Some (MkExn ModuleNotFoundError "No module named 'twilio'" None);
  client_init := fun _ _ => None;
  messages_create := fun _ _ _ => inr (Message (VStr "SM1") (VStr "queued"));
  import_requests := None;
  requests_post := fun url _ _ _ => inr (resp url)
|}.

(** The SDK is installed but does not parse. *)
Definition broken_package_world : World := {|
  import_twilio :=
    Some (MkExn (Subclass "SyntaxError" Exception) "invalid syntax" None);
  client_init := fun _ _ => None;
  messages_create := fun _ _ _ => inr (Message (VStr "SM1") (VStr "queued"));
  import_requests := None;
  requests_post := fun url _ _ _ => inr (created_response url)
|}.

(** The import of the SDK is interrupted from the keyboard. *)
Definition interrupted_world : World := {|
  import_twilio := Some (MkExn KeyboardInterrupt EmptyString None);
  client_init := fun _ _ => None;
  messages_create := fun _ _ _ => inr (Message (VStr "SM1") (VStr "queued"));
  import_requests := None;
  requests_post := fun url _ _ _ => inr (created_response url)
|}.

(** The SDK imports, and building the client raises [ImportError] (a
    submodule the client loads on demand is missing). *)
Definition late_import_error : exn :=
  MkExn ImportError "cannot import name 'Api' from 'twilio.rest.api'" None.

Definition broken_client_world : World := {|
  import_twilio := None;
  client_init := fun _ _ => Some late_import_error;
  messages_create := fun _ _ _ => inr (Message (VStr "SM1") (VStr "queued"));
  import_requests := None;
  requests_post := fun url _ _ _ => inr (created_response url)
|}.

(** The SDK imports, the client is built, and creating the message raises
    [ModuleNotFoundError]. *)
Definition broken_create_world : World := {|
  import_twilio := None;
  client_init := fun _ _ => None;
  messages_create := fun _ _ _ =>
    inl (MkExn ModuleNotFoundError "No module named 'aiohttp'" None);
  import_requests := None;
  requests_post := fun url _ _ _ => inr (created_response url)
|}.

(** ** More readings of a trace, and more invocations *)

(** The SDK calls of a trace. *)
Definition is_client (ev : event) : bool :=
  match ev with
  | EvClient _ _ => true
  | _ => false
  end.

Definition is_create (ev : event) : bool :=
  match ev with
  | EvMessagesCreate _ _ _ => true
  | _ => false
  end.

(** A credential has a usable source: a flag that is not empty, or an
    environment variable that is set and not empty. *)
Definition has_value (flag : val) (env : option string) : Prop :=
  non_empty flag \/ exists v, env = Some v /\ v <> EmptyString.

Definition all_have_values (environ : gmap string string) (args : Namespace)
  : Prop :=
  has_value (args_account_sid args) (environ !! "TWILIO_ACCOUNT_SID")
  /\ has_value (args_auth_token args) (environ !! "TWILIO_AUTH_TOKEN")
  /\ has_value (args_from_number args) (environ !! "TWILIO_FROM").

(** An event that carries configuration carries the resolved one. *)
Definition carries_resolved (environ : gmap string string) (args : Namespace)
    (ev : event) : Prop :=
  match ev with
  | EvClient a tk =>
      a = resolve_account_sid environ args
      /\ tk = resolve_auth_token environ args
  | EvMessagesCreate b f to =>
      b = VStr (args_body args)
      /\ f = resolve_from_number environ args
      /\ to = VStr (args_to args)
  | EvPost _ _ _ _ => ev = fallback_post environ args
  | _ => True
  end.

(** What [main] prints before and after the fallback. *)
Definition fallback_announcement : event :=
  EvPrint [PStr "twilio package not installed; attempting HTTP fallback using requests."].

Definition fallback_failure_report (e : exn) : event :=
  EvPrint [PStr "Failed to send message via HTTP API:"; PStr (exn_str e)].

Definition primary_failure_report (e : exn) : event :=
  EvPrint [PStr "Failed to send via twilio package:"; PStr (exn_str e)].

(** Neither the SDK nor [requests] is installed. *)
Definition nothing_installed_world : World := {|
  import_twilio :=
    Some (MkExn ModuleNotFoundError "No module named 'twilio'" None);
  client_init := fun _ _ => None;
  messages_create := fun _ _ _ => inr (Message (VStr "SM1") (VStr "queued"));
  import_requests :=
    Some (MkExn ModuleNotFoundError "No module named 'requests'" None);
  requests_post := fun url _ _ _ => inr (created_response url)
|}.

(** The SDK is not installed and the endpoint cannot be reached. *)
Definition connection_error : exn :=
  MkExn (Subclass "ConnectionError" (Subclass "RequestException"
           (Subclass "OSError" Exception)))
        "Failed to establish a new connection" None.

Definition offline_world : World := {|
  import_twilio :=
    Some (MkExn ModuleNotFoundError "No module named 'twilio'" None);
  client_init := fun _ _ => None;
  messages_create := fun _ _ _ => inr (Message (VStr "SM1") (VStr "queued"));
  import_requests := None;
  requests_post := fun _ _ _ _ => inl connection_error
|}.

(** A 201 whose body is not JSON. *)
Definition json_decode_error : exn :=
  MkExn (Subclass "JSONDecodeError" (Subclass "ValueError" Exception))
        "Expecting value: line 1 column 1 (char 0)" None.

Definition not_json_response (url : string) : response :=
  Response 201 "Created" url (inl json_decode_error).

(** The SDK ends the interpreter while the message is created, with
    [sys.exit(0)]. *)
Definition exiting_world : World := {|
  import_twilio := None;
  client_init := fun _ _ => None;
  messages_create := fun _ _ _ => inl (MkSystemExit (Some 0) None);
  import_requests := None;
  requests_post := fun url _ _ _ => inr (created_response url)
|}.

(** A 302 that [requests] did not follow. *)
Definition found_response (url : string) : response :=
  Response 302 "Found" url (inr (JObj [])).

(** * Properties *)

(** ** Truthiness and the merge *)

Lemma truthy_true_iff (v : val) :
  truthy v = true <-> exists s, v = VStr s /\ s <> EmptyString.
Proof.
  destruct v as [|s]; simpl.
  - split; [discriminate | intros (s & H & _); discriminate].
  - rewrite negb_true_iff, String.eqb_neq. split.
    + intros H. exists s. split; [reflexivity | exact H].
    + intros (s' & [= ->] & H). exact H.
Qed.

Lemma truthy_false_iff (v : val) : truthy v = false <-> is_empty v.
Proof.
  unfold is_empty. destruct v as [|s]; simpl.
  - split; [left; reflexivity | reflexivity].
  - rewrite negb_false_iff, String.eqb_eq. split.
    + intros ->. right; reflexivity.
    + intros [H | [= ->]]; [discriminate | reflexivity].
Qed.

Lemma truthy_py_and (a b : val) : truthy (py_and a b) = truthy a && truthy b.
Proof. unfold py_and. destruct (truthy a) eqn:E; simpl; [reflexivity | exact E]. Qed.

Lemma credentials_ok_guard environ args :
  truthy (py_and (py_and (resolve_account_sid environ args)
                         (resolve_auth_token environ args))
                 (resolve_from_number environ args))
  = credentials_ok environ args.
Proof. unfold credentials_ok. rewrite !truthy_py_and. reflexivity. Qed.

Lemma credentials_ok_false environ args :
  credentials_ok environ args = false <->
  is_empty (resolve_account_sid environ args)
  \/ is_empty (resolve_auth_token environ args)
  \/ is_empty (resolve_from_number environ args).
Proof.
  unfold credentials_ok. rewrite !andb_false_iff, !truthy_false_iff. tauto.
Qed.

Lemma py_or_truthy (a b : val) : truthy a = true -> py_or a b = a.
Proof. unfold py_or. intros ->. reflexivity. Qed.

Lemma py_or_falsy (a b : val) : truthy a = false -> py_or a b = b.
Proof. unfold py_or. intros ->. reflexivity. Qed.

Lemma mentions_substring (needle hay : string) :
  mentions needle hay = true ->
  exists n, String.substring n (String.length needle) hay = needle.
Proof.
  unfold mentions. destruct (String.index 0 needle hay) as [n|] eqn:E.
  - intros _. exists n. eapply String.index_correct1. exact E.
  - discriminate.
Qed.

(** ** Computations only append to the trace *)

Lemma framed_ret {A} (a : A) : framed (ret a).
Proof. intros t. unfold ret. simpl. by rewrite app_nil_r. Qed.

Lemma framed_raise {A} (e : exn) : framed (@raise A e).
Proof. intros t. unfold raise. simpl. by rewrite app_nil_r. Qed.

Lemma framed_emit (ev : event) : framed (emit ev).
Proof. intros t. reflexivity. Qed.

Lemma framed_print (args : list printed) : framed (print args).
Proof. apply framed_emit. Qed.

Lemma framed_answer_unit (o : option exn) : framed (answer_unit o).
Proof. destruct o; [apply framed_raise | apply framed_ret]. Qed.

Lemma framed_answer {A} (o : exn + A) : framed (answer o).
Proof. destruct o; [apply framed_raise | apply framed_ret]. Qed.

Lemma framed_bind {A B} (m : M A) (f : A -> M B) :
  framed m -> (forall a, framed (f a)) -> framed (m ≫= f).
Proof.
  intros Hm Hf t. unfold mbind, M_bind, bind.
  rewrite (Hm t). destruct (m []) as [[a|e] t1]; simpl.
  - rewrite (Hf a (t ++ t1)), (Hf a t1). simpl. by rewrite app_assoc.
  - reflexivity.
Qed.

Lemma framed_try_except {A} (m : M A) (cs : list (clause A)) :
  framed m -> (forall c h e, (c, h) ∈ cs -> framed (h e)) ->
  framed (try_except m cs).
Proof.
  intros Hm Hcs t. unfold try_except.
  rewrite (Hm t). destruct (m []) as [[a|e] t1]; simpl; [reflexivity|].
  destruct (select_clause cs e) as [h|] eqn:Hsel; [|reflexivity].
  assert (Hh : framed (h e)).
  { clear -Hsel Hcs. induction cs as [|[c h'] cs IH]; simpl in Hsel; [discriminate|].
    destruct (isinstance e c).
    - injection Hsel as ->. eapply Hcs. left.
    - apply IH; [|exact Hsel]. intros c0 h0 e0 Hin. eapply Hcs. right. exact Hin. }
  rewrite (Hh (t ++ t1)), (Hh t1). simpl. by rewrite app_assoc.
Qed.

Create HintDb framed.
#[global] Hint Resolve framed_ret framed_raise framed_emit framed_print
  framed_answer_unit framed_answer : framed.

Ltac framed_tac :=
  repeat first
    [ match goal with
      | |- forall _, _ => intro
      end
    | apply framed_bind
    | apply framed_try_except
    | match goal with
      | H : _ ∈ [] |- _ => by apply elem_of_nil in H
      | H : _ ∈ _ :: _ |- _ =>
          apply elem_of_cons in H; destruct H as [[= -> ->] | H]
      | |- framed (if ?b then _ else _) => destruct b
      end
    | solve [auto with framed] ].

Lemma framed_raise_for_status resp : framed (raise_for_status resp).
Proof. unfold raise_for_status. framed_tac. Qed.
#[global] Hint Resolve framed_raise_for_status : framed.

Lemma framed_send_with_twilio w a tk f to b :
  framed (send_with_twilio w a tk f to b).
Proof. unfold send_with_twilio. framed_tac. Qed.

Lemma framed_send_with_requests w a tk f to b :
  framed (send_with_requests w a tk f to b).
Proof. unfold send_with_requests. framed_tac. Qed.
#[global] Hint Resolve framed_send_with_requests : framed.

Lemma framed_except_Exception e : framed (except_Exception e).
Proof. unfold except_Exception. framed_tac. Qed.

Lemma framed_except_ImportError w a tk f to b :
  framed (except_ImportError w a tk f to b).
Proof. unfold except_ImportError. framed_tac. Qed.

(** ** What each function does, case by case *)

Lemma send_with_twilio_run w a tk f to b :
  send_with_twilio w a tk f to b [] =
  match import_twilio w with
  | Some e =>
      if isinstance e Exception
      then (Raises (MkExn ImportError "twilio package not installed" (Some e)),
            [EvImportTwilio])
      else (Raises e, [EvImportTwilio])
  | None =>
      match client_init w a tk with
      | Some e => (Raises e, [EvImportTwilio; EvClient a tk])
      | None =>
          match messages_create w b f to with
          | inl e =>
              (Raises e,
               [EvImportTwilio; EvClient a tk; EvMessagesCreate b f to])
          | inr m =>
              (Returns [("sid", sid m); ("status", status m)],
               [EvImportTwilio; EvClient a tk; EvMessagesCreate b f to])
          end
      end
  end.
Proof.
  unfold send_with_twilio, try_except, mbind, M_bind, bind, emit. simpl.
  destruct (import_twilio w) as [e|]; simpl.
  - destruct (isinstance e Exception); reflexivity.
  - destruct (client_init w a tk) as [e|]; simpl; [reflexivity|].
    destruct (messages_create w b f to) as [e|m]; reflexivity.
Qed.

Lemma http_error_msg_truthy resp :
  truthy (VStr (http_error_msg resp))
  = bool_decide (400 <= status_code resp < 600).
Proof.
  unfold http_error_msg. simpl.
  repeat case_bool_decide; try lia; try reflexivity;
    destruct (pretty (status_code resp)); reflexivity.
Qed.

Lemma send_with_requests_run w a tk f to b :
  let url := "https://api.twilio.com/2010-04-01/Accounts/"
               +:+ format_val a +:+ "/Messages.json" in
  let payload := [("From", f); ("To", to); ("Body", b)] in
  let post := EvPost url payload (a, tk) 30 in
  send_with_requests w a tk f to b [] =
  match import_requests w with
  | Some e => (Raises e, [EvImportRequests])
  | None =>
      match requests_post w url payload (a, tk) 30 with
      | inl e => (Raises e, [EvImportRequests; post])
      | inr resp =>
          if bool_decide (400 <= status_code resp < 600)
          then (Raises (MkExn HTTPError (http_error_msg resp) None),
                [EvImportRequests; post])
          else match resp_json resp with
               | inl e => (Raises e, [EvImportRequests; post])
               | inr j => (Returns j, [EvImportRequests; post])
               end
      end
  end.
Proof.
  intros url payload post.
  unfold send_with_requests, raise_for_status, mbind, M_bind, bind, emit.
  simpl. destruct (import_requests w) as [e|]; simpl; [reflexivity|].
  fold url. fold payload.
  destruct (requests_post w url payload (a, tk) 30) as [e|resp]; simpl;
    [reflexivity|].
  rewrite <- http_error_msg_truthy. unfold truthy.
  destruct (negb (String.eqb (http_error_msg resp) EmptyString)); simpl; [reflexivity|].
  destruct (resp_json resp); reflexivity.
Qed.

(** The fallback handler, from the result of [send_with_requests]. *)
Lemma except_ImportError_run w a tk f to b :
  let fallback_print :=
    EvPrint [PStr "twilio package not installed; attempting HTTP fallback using requests."] in
  except_ImportError w a tk f to b [] =
  match send_with_requests w a tk f to b [] with
  | (Returns j, t) =>
      (Returns tt,
       fallback_print :: t ++ [EvPrint [PStr "Sent via HTTP API. Response:"];
                               EvPrint [PJson j]])
  | (Raises e, t) =>
      if isinstance e Exception
      then (Raises e,
            fallback_print :: t ++
              [EvPrint [PStr "Failed to send message via HTTP API:";
                        PStr (exn_str e)]])
      else (Raises e, fallback_print :: t)
  end.
Proof.
  intros fallback_print. subst fallback_print.
  unfold except_ImportError, try_except, print, mbind, M_bind, bind, emit.
  cbn [app].
  rewrite (framed_send_with_requests w a tk f to b [_]).
  destruct (send_with_requests w a tk f to b []) as [[j|e] t]; simpl.
  - rewrite <- app_assoc. reflexivity.
  - destruct (isinstance e Exception); reflexivity.
Qed.

(** [main], from the result of the primary path. *)
Lemma main_run w environ args :
  main w environ args [] =
  if credentials_ok environ args then
    match primary w environ args with
    | (Returns r, t) =>
        (Returns tt,
         t ++ [EvPrint [PStr "Sent via twilio package. Result:"; PDict r]])
    | (Raises e, t) =>
        if isinstance e ImportError then
          except_ImportError w (resolve_account_sid environ args)
            (resolve_auth_token environ args)
            (resolve_from_number environ args)
            (VStr (args_to args)) (VStr (args_body args)) t
        else if isinstance e Exception then
          (Raises e,
           t ++ [EvPrint [PStr "Failed to send via twilio package:";
                          PStr (exn_str e)]])
        else (Raises e, t)
    end
  else (Raises (MkExn SystemExit missing_credentials None), []).
Proof.
  unfold main. rewrite credentials_ok_guard.
  destruct (credentials_ok environ args); simpl; [|reflexivity].
  unfold try_except, mbind, M_bind, bind, primary.
  destruct (send_with_twilio _ _ _ _ _ _ []) as [[r|e] t]; simpl;
    [reflexivity|].
  destruct (isinstance e ImportError); [reflexivity|].
  destruct (isinstance e Exception); reflexivity.
Qed.

(** ** The process, from [main] *)

Lemma run_main w environ args :
  run w environ args =
  {| proc_trace := (main w environ args []).2;
     proc_stderr := (exit_of (main w environ args []).1).1;
     proc_status := (exit_of (main w environ args []).1).2 |}.
Proof. unfold run. destruct (main w environ args []); reflexivity. Qed.

(** An instance of [ImportError] is an instance of [Exception], and an
    instance of [Exception] is no [SystemExit]. *)
Lemma issubclass_Subclass (n : string) (c d : pyclass) :
  issubclass (Subclass n c) d = true <->
  d = Subclass n c \/ issubclass c d = true.
Proof.
  unfold issubclass. rewrite !bool_decide_eq_true. simpl.
  apply elem_of_cons.
Qed.

Lemma issubclass_ImportError_Exception (c : pyclass) :
  issubclass c ImportError = true -> issubclass c Exception = true.
Proof.
  induction c as [| | | | | |n c IH];
    try (intros H; vm_compute in H |- *; congruence).
  rewrite !issubclass_Subclass. intros [H | H]; [discriminate|].
  right. apply IH, H.
Qed.

Lemma issubclass_Exception_SystemExit (c : pyclass) :
  issubclass c Exception = true -> issubclass c SystemExit = false.
Proof.
  induction c as [| | | | | |n c IH];
    try (intros H; vm_compute in H |- *; congruence).
  rewrite issubclass_Subclass. intros [H | H]; [discriminate|].
  apply not_true_iff_false. rewrite issubclass_Subclass.
  intros [H' | H']; [discriminate|].
  rewrite (IH H) in H'. discriminate.
Qed.

Lemma isinstance_Exception_SystemExit (e : exn) :
  isinstance e Exception = true -> isinstance e SystemExit = false.
Proof. apply issubclass_Exception_SystemExit. Qed.

(** An exception nobody caught never gives status 0, unless it is a
    [SystemExit]. *)
Lemma exit_of_raises (e : exn) :
  isinstance e SystemExit = false -> (exit_of (Raises e)).2 <> 0.
Proof.
  destruct e as [c m ca | code ca]; [|discriminate].
  unfold isinstance. simpl. intros ->.
  destruct (issubclass c KeyboardInterrupt); simpl; lia.
Qed.

(** The primary path prints nothing and never reaches the fallback. *)
Lemma primary_trace w environ args :
  posts (primary w environ args).2 = []
  /\ fallback_attempted (primary w environ args).2 = false.
Proof.
  unfold primary. rewrite send_with_twilio_run.
  destruct (import_twilio w) as [e|].
  - destruct (isinstance e Exception); split; reflexivity.
  - destruct (client_init w _ _); [split; reflexivity|].
    destruct (messages_create w _ _ _); split; reflexivity.
Qed.

(** ** Configuration *)

(** C1: when, after the merge of the command line with the environment,
    the account id, the auth token or the sender number is empty, the
    process ends with a status that is not 0, the interpreter writes the
    message of [sys.exit], which names TWILIO_ACCOUNT_SID, TWILIO_AUTH_TOKEN
    and TWILIO_FROM, and nothing was done to the outside before: the trace
    is empty, so no import, no SDK call and no HTTP request. *)
Theorem C1_missing_credentials_exit w environ args :
  is_empty (resolve_account_sid environ args)
  \/ is_empty (resolve_auth_token environ args)
  \/ is_empty (resolve_from_number environ args) ->
  proc_status (run w environ args) <> 0
  /\ proc_stderr (run w environ args) = ErrMessage missing_credentials
  /\ mentions "TWILIO_ACCOUNT_SID" missing_credentials = true
  /\ mentions "TWILIO_AUTH_TOKEN" missing_credentials = true
  /\ mentions "TWILIO_FROM" missing_credentials = true
  /\ proc_trace (run w environ args) = [].
Proof.
  intros Hempty. apply credentials_ok_false in Hempty.
  rewrite run_main, main_run, Hempty. simpl.
  repeat split; try reflexivity. lia.
Qed.

Lemma C1_witness :
  proc_status (run sdk_world ∅ bare_args) <> 0
  /\ proc_stderr (run sdk_world ∅ bare_args) = ErrMessage missing_credentials
  /\ mentions "TWILIO_ACCOUNT_SID" missing_credentials = true
  /\ mentions "TWILIO_AUTH_TOKEN" missing_credentials = true
  /\ mentions "TWILIO_FROM" missing_credentials = true
  /\ proc_trace (run sdk_world ∅ bare_args) = [].
Proof.
  apply (C1_missing_credentials_exit sdk_world ∅ bare_args).
  left. left. reflexivity.
Defined.

(** C6, as the claim states it, fails: [--account-sid] given as the empty
    string with TWILIO_ACCOUNT_SID set is a command-line value and an
    environment value both present, and the environment value is used. *)
Lemma C6_counterexample :
  args_account_sid empty_flag_args = VStr EmptyString
  /\ full_environ !! "TWILIO_ACCOUNT_SID" = Some "ACenv"
  /\ resolve_account_sid full_environ empty_flag_args = VStr "ACenv"
  /\ resolve_account_sid full_environ empty_flag_args
     <> args_account_sid empty_flag_args.
Proof. vm_compute. repeat split; discriminate. Qed.

(** C6, amended: for each of the account id, the auth token and the sender
    number, a command-line value that is not the empty string is the
    resolved value, whatever the environment holds. *)
Theorem C6_cli_precedence environ args (c : string) :
  c <> EmptyString ->
  (args_account_sid args = VStr c ->
   resolve_account_sid environ args = VStr c)
  /\ (args_auth_token args = VStr c ->
      resolve_auth_token environ args = VStr c)
  /\ (args_from_number args = VStr c ->
      resolve_from_number environ args = VStr c).
Proof.
  intros Hc.
  assert (Ht : truthy (VStr c) = true).
  { apply truthy_true_iff. exists c. split; [reflexivity | exact Hc]. }
  unfold resolve_account_sid, resolve_auth_token, resolve_from_number.
  repeat split; intros ->; apply py_or_truthy; exact Ht.
Qed.

Lemma C6_witness :
  resolve_account_sid full_environ spec_args = VStr "AC123"
  /\ resolve_auth_token full_environ spec_args = VStr "tok"
  /\ resolve_from_number full_environ spec_args = VStr "+15550000000".
Proof.
  split; [|split].
  - apply (C6_cli_precedence full_environ spec_args "AC123");
      [discriminate | reflexivity].
  - apply (C6_cli_precedence full_environ spec_args "tok");
      [discriminate | reflexivity].
  - apply (C6_cli_precedence full_environ spec_args "+15550000000");
      [discriminate | reflexivity].
Defined.

(** C8: a credential flag given as the empty string, with its environment
    variable holding a value [v], resolves to [v], the value of the
    environment: [value or env] takes the empty string as absent and does
    not let it take precedence.  This holds for every [v], so for the [v]
    that are not empty, and for each of [--account-sid], [--auth-token]
    and [--from]. *)
Theorem C8_empty_flag_uses_environ environ args (v : string) :
  (args_account_sid args = VStr EmptyString ->
   environ !! "TWILIO_ACCOUNT_SID" = Some v ->
   resolve_account_sid environ args = VStr v)
  /\ (args_auth_token args = VStr EmptyString ->
      environ !! "TWILIO_AUTH_TOKEN" = Some v ->
      resolve_auth_token environ args = VStr v)
  /\ (args_from_number args = VStr EmptyString ->
      environ !! "TWILIO_FROM" = Some v ->
      resolve_from_number environ args = VStr v).
Proof.
  unfold resolve_account_sid, resolve_auth_token, resolve_from_number, getenv.
  repeat split; intros -> ->; reflexivity.
Qed.

Lemma C8_witness :
  resolve_account_sid full_environ empty_flag_args = VStr "ACenv".
Proof.
  apply (C8_empty_flag_uses_environ full_environ empty_flag_args "ACenv");
    reflexivity.
Defined.

(** ** The two transports in [main] *)

Lemma main_fallback w environ args e t :
  credentials_ok environ args = true ->
  primary w environ args = (Raises e, t) ->
  isinstance e ImportError = true ->
  main w environ args [] =
  ((fallback w environ args).1, t ++ (fallback w environ args).2).
Proof.
  intros Hok Hprim Himp. rewrite main_run, Hok, Hprim, Himp.
  apply framed_except_ImportError.
Qed.

Lemma secondary_run w environ args :
  secondary w environ args =
  match import_requests w with
  | Some e => (Raises e, [EvImportRequests])
  | None =>
      match requests_post w (fallback_url environ args)
              (fallback_form environ args) (fallback_auth environ args) 30 with
      | inl e => (Raises e, [EvImportRequests; fallback_post environ args])
      | inr resp =>
          if bool_decide (400 <= status_code resp < 600)
          then (Raises (MkExn HTTPError (http_error_msg resp) None),
                [EvImportRequests; fallback_post environ args])
          else match resp_json resp with
               | inl e =>
                   (Raises e, [EvImportRequests; fallback_post environ args])
               | inr j =>
                   (Returns j, [EvImportRequests; fallback_post environ args])
               end
      end
  end.
Proof. unfold secondary. rewrite send_with_requests_run. reflexivity. Qed.

Lemma fallback_run w environ args :
  fallback w environ args =
  match secondary w environ args with
  | (Returns j, t) =>
      (Returns tt,
       EvPrint [PStr "twilio package not installed; attempting HTTP fallback using requests."]
       :: t ++ [EvPrint [PStr "Sent via HTTP API. Response:"];
                EvPrint [PJson j]])
  | (Raises e, t) =>
      if isinstance e Exception
      then (Raises e,
            EvPrint [PStr "twilio package not installed; attempting HTTP fallback using requests."]
            :: t ++ [EvPrint [PStr "Failed to send message via HTTP API:";
                              PStr (exn_str e)]])
      else (Raises e,
            EvPrint [PStr "twilio package not installed; attempting HTTP fallback using requests."]
            :: t)
  end.
Proof. unfold fallback, secondary. apply except_ImportError_run. Qed.

(** Once [requests] is imported the fallback sends one request, whatever
    comes back. *)
Lemma fallback_posts w environ args :
  import_requests w = None ->
  posts (fallback w environ args).2 = [fallback_post environ args].
Proof.
  intros Himp. rewrite fallback_run, secondary_run, Himp.
  destruct (requests_post w _ _ _ 30) as [e|resp].
  - destruct (isinstance e Exception); reflexivity.
  - case_bool_decide; [reflexivity|].
    destruct (resp_json resp) as [e|j]; [|reflexivity].
    destruct (isinstance e Exception); reflexivity.
Qed.

Lemma fallback_is_attempted w environ args :
  fallback_attempted (fallback w environ args).2 = true.
Proof.
  rewrite fallback_run, secondary_run.
  destruct (import_requests w) as [e|].
  - destruct (isinstance e Exception); reflexivity.
  - destruct (requests_post w _ _ _ 30) as [e|resp].
    + destruct (isinstance e Exception); reflexivity.
    + case_bool_decide; [reflexivity|].
      destruct (resp_json resp) as [e|j]; [|reflexivity].
      destruct (isinstance e Exception); reflexivity.
Qed.

Lemma posts_app (t1 t2 : trace) : posts (t1 ++ t2) = posts t1 ++ posts t2.
Proof. apply List.filter_app. Qed.

Lemma fallback_attempted_app (t1 t2 : trace) :
  fallback_attempted (t1 ++ t2)
  = fallback_attempted t1 || fallback_attempted t2.
Proof. apply List.existsb_app. Qed.

(** ** The SDK path *)

(** C5: when the SDK path succeeds (the package imports, the client is
    built, and [messages.create] returns a message [m]), the program
    prints one result, the dictionary with exactly the keys sid and status
    holding the identifier and the status of [m], and the process ends
    with status 0.  The witness is the specification's example: the SDK
    answering sid SM1 and status queued. *)
Theorem C5_sdk_success_reported w environ args (m : message) :
  credentials_ok environ args = true ->
  import_twilio w = None ->
  client_init w (resolve_account_sid environ args)
                (resolve_auth_token environ args) = None ->
  messages_create w (VStr (args_body args))
                    (resolve_from_number environ args)
                    (VStr (args_to args)) = inr m ->
  (primary w environ args).1
    = Returns [("sid", sid m); ("status", status m)]
  /\ proc_trace (run w environ args)
     = [EvImportTwilio;
        EvClient (resolve_account_sid environ args)
                 (resolve_auth_token environ args);
        EvMessagesCreate (VStr (args_body args))
                         (resolve_from_number environ args)
                         (VStr (args_to args));
        EvPrint [PStr "Sent via twilio package. Result:";
                 PDict [("sid", sid m); ("status", status m)]]]
  /\ proc_stderr (run w environ args) = ErrNothing
  /\ proc_status (run w environ args) = 0.
Proof.
  intros Hok Himp Hclient Hcreate.
  assert (Hprim : primary w environ args =
                  (Returns [("sid", sid m); ("status", status m)],
                   [EvImportTwilio;
                    EvClient (resolve_account_sid environ args)
                             (resolve_auth_token environ args);
                    EvMessagesCreate (VStr (args_body args))
                                     (resolve_from_number environ args)
                                     (VStr (args_to args))])).
  { unfold primary. rewrite send_with_twilio_run, Himp, Hclient, Hcreate.
    reflexivity. }
  rewrite run_main, main_run, Hok, Hprim. simpl. repeat split; reflexivity.
Qed.

Lemma C5_witness :
  (primary sdk_world ∅ spec_args).1
    = Returns [("sid", VStr "SM1"); ("status", VStr "queued")]
  /\ proc_trace (run sdk_world ∅ spec_args)
     = [EvImportTwilio;
        EvClient (VStr "AC123") (VStr "tok");
        EvMessagesCreate (VStr "Hello") (VStr "+15550000000")
                         (VStr "+15551234567");
        EvPrint [PStr "Sent via twilio package. Result:";
                 PDict [("sid", VStr "SM1"); ("status", VStr "queued")]]]
  /\ proc_stderr (run sdk_world ∅ spec_args) = ErrNothing
  /\ proc_status (run sdk_world ∅ spec_args) = 0.
Proof.
  apply (C5_sdk_success_reported sdk_world ∅ spec_args
           (Message (VStr "SM1") (VStr "queued"))); reflexivity.
Defined.

(** ** The HTTP path *)

(** C3, as the claim states it, fails: with neither the SDK nor
    [requests] installed the program is on the fallback path (the
    credentials are there, the primary path raised an [ImportError], the
    fallback is entered), and line 37 raises before any request is built:
    no HTTP POST is issued. *)
Lemma C3_counterexample :
  credentials_ok ∅ spec_args = true
  /\ primary nothing_installed_world ∅ spec_args
     = (Raises (MkExn ImportError "twilio package not installed"
                  (Some (MkExn ModuleNotFoundError
                           "No module named 'twilio'" None))),
        [EvImportTwilio])
  /\ fallback_attempted (proc_trace (run nothing_installed_world ∅ spec_args))
     = true
  /\ posts (proc_trace (run nothing_installed_world ∅ spec_args)) = [].
Proof. repeat split. Qed.

(** C3, amended: on the fallback path (the credentials are there and the
    primary path raised an [ImportError]), when [import requests]
    succeeds the program issues exactly one HTTP POST, whatever the
    answer: to
    https://api.twilio.com/2010-04-01/Accounts/{account_sid}/Messages.json,
    with the form fields From, To and Body holding the sender, the
    recipient and the body, the account id and the auth token as Basic
    credentials, and a timeout of 30 seconds.  When [import requests]
    raises, it issues none. *)
Theorem C3_fallback_request w environ args e t :
  credentials_ok environ args = true ->
  primary w environ args = (Raises e, t) ->
  isinstance e ImportError = true ->
  posts (proc_trace (run w environ args))
  = match import_requests w with
    | None =>
        [EvPost ("https://api.twilio.com/2010-04-01/Accounts/"
                   +:+ format_val (resolve_account_sid environ args)
                   +:+ "/Messages.json")
                [("From", resolve_from_number environ args);
                 ("To", VStr (args_to args));
                 ("Body", VStr (args_body args))]
                (resolve_account_sid environ args,
                 resolve_auth_token environ args)
                30]
    | Some _ => []
    end.
Proof.
  intros Hok Hprim Himp.
  rewrite run_main, (main_fallback _ _ _ _ _ Hok Hprim Himp). simpl.
  pose proof (primary_trace w environ args) as [Hp _].
  rewrite Hprim in Hp. simpl in Hp. rewrite posts_app, Hp. simpl.
  destruct (import_requests w) as [e'|] eqn:Hreq.
  - rewrite fallback_run, secondary_run, Hreq.
    destruct (isinstance e' Exception); reflexivity.
  - apply (fallback_posts _ _ _ Hreq).
Qed.

Lemma C3_witness :
  posts (proc_trace (run (no_sdk_world created_response) ∅ spec_args))
  = [EvPost "https://api.twilio.com/2010-04-01/Accounts/AC123/Messages.json"
            [("From", VStr "+15550000000");
             ("To", VStr "+15551234567");
             ("Body", VStr "Hello")]
            (VStr "AC123", VStr "tok")
            30].
Proof.
  exact (C3_fallback_request (no_sdk_world created_response) ∅ spec_args
           (MkExn ImportError "twilio package not installed"
              (Some (MkExn ModuleNotFoundError "No module named 'twilio'"
                       None)))
           [EvImportTwilio] eq_refl eq_refl eq_refl).
Defined.

(** C4: on the fallback path, a response with a status code from 400 to
    599 is raised as an [HTTPError]: the process ends with a status that
    is not 0 and the trace holds the one request and no second one.  A
    response with a status code from 200 to 299 is not raised:
    [send_with_requests] returns what [resp.json()] returns, as it is, and
    when that is a parsed body [j] the program prints [j] itself and ends
    with status 0. *)
Theorem C4_fallback_response w environ args e t (resp : response) :
  credentials_ok environ args = true ->
  primary w environ args = (Raises e, t) ->
  isinstance e ImportError = true ->
  import_requests w = None ->
  requests_post w (fallback_url environ args) (fallback_form environ args)
                  (fallback_auth environ args) 30 = inr resp ->
  (400 <= status_code resp < 600 ->
     (secondary w environ args).1
       = Raises (MkExn HTTPError (http_error_msg resp) None)
     /\ proc_status (run w environ args) <> 0
     /\ proc_stderr (run w environ args)
        = ErrTraceback (MkExn HTTPError (http_error_msg resp) None)
     /\ posts (proc_trace (run w environ args))
        = [fallback_post environ args])
  /\ (200 <= status_code resp < 300 ->
        (secondary w environ args).1
          = match resp_json resp with
            | inr j => Returns j
            | inl e' => Raises e'
            end
        /\ forall j, resp_json resp = inr j ->
             proc_status (run w environ args) = 0
             /\ proc_trace (run w environ args)
                = t ++ [EvPrint [PStr "twilio package not installed; attempting HTTP fallback using requests."];
                        EvImportRequests;
                        fallback_post environ args;
                        EvPrint [PStr "Sent via HTTP API. Response:"];
                        EvPrint [PJson j]]).
Proof.
  intros Hok Hprim Himp Hreq Hpost.
  pose proof (secondary_run w environ args) as Hsec.
  rewrite Hreq, Hpost in Hsec.
  pose proof (fallback_run w environ args) as Hfb.
  rewrite run_main, (main_fallback _ _ _ _ _ Hok Hprim Himp).
  split; intros Hcode.
  - rewrite bool_decide_eq_true_2 in Hsec by exact Hcode.
    rewrite Hsec in Hfb. change (isinstance _ Exception) with true in Hfb.
    rewrite Hfb, Hsec. simpl. repeat split.
    + lia.
    + rewrite posts_app.
      pose proof (primary_trace w environ args) as [Hp _].
      rewrite Hprim in Hp. simpl in Hp. rewrite Hp. reflexivity.
  - rewrite bool_decide_eq_false_2 in Hsec by lia.
    split.
    + rewrite Hsec. destruct (resp_json resp); reflexivity.
    + intros j Hj. rewrite Hj in Hsec. rewrite Hsec in Hfb. rewrite Hfb.
      simpl. split; reflexivity.
Qed.

Lemma C4_witness :
  (proc_status (run (no_sdk_world unauthorized_response) ∅ spec_args) <> 0
   /\ posts (proc_trace (run (no_sdk_world unauthorized_response) ∅ spec_args))
      = [fallback_post ∅ spec_args])
  /\ (secondary (no_sdk_world created_response) ∅ spec_args).1
     = Returns (JObj [("sid", JStr "SM2"); ("status", JStr "sent")]).
Proof.
  split.
  - pose proof (C4_fallback_response (no_sdk_world unauthorized_response)
                  ∅ spec_args
                  (MkExn ImportError "twilio package not installed"
                     (Some (MkExn ModuleNotFoundError
                              "No module named 'twilio'" None)))
                  [EvImportTwilio]
                  (unauthorized_response (fallback_url ∅ spec_args))
                  eq_refl eq_refl eq_refl eq_refl eq_refl) as [H _].
    destruct H as (_ & Hst & _ & Hposts); [simpl; lia|].
    split; [exact Hst | exact Hposts].
  - pose proof (C4_fallback_response (no_sdk_world created_response)
                  ∅ spec_args
                  (MkExn ImportError "twilio package not installed"
                     (Some (MkExn ModuleNotFoundError
                              "No module named 'twilio'" None)))
                  [EvImportTwilio]
                  (created_response (fallback_url ∅ spec_args))
                  eq_refl eq_refl eq_refl eq_refl eq_refl) as [_ H].
    destruct H as [Hres _]; [simpl; lia|]. exact Hres.
Defined.

(** ** Which failures select the fallback *)

(** When does [main] enter the fallback: exactly when the credentials are
    there and the primary path raised an instance of [ImportError]. *)
Lemma fallback_attempted_iff w environ args :
  fallback_attempted (proc_trace (run w environ args)) = true <->
  credentials_ok environ args = true
  /\ exists e t, primary w environ args = (Raises e, t)
                 /\ isinstance e ImportError = true.
Proof.
  rewrite run_main. simpl. split.
  - rewrite main_run.
    destruct (credentials_ok environ args); [|discriminate].
    pose proof (primary_trace w environ args) as [_ Hp].
    destruct (primary w environ args) as [[r|e] t]; simpl in *.
    + rewrite fallback_attempted_app, Hp. discriminate.
    + destruct (isinstance e ImportError) eqn:Himp.
      * intros _. split; [reflexivity|]. exists e, t.
        split; [reflexivity | exact Himp].
      * destruct (isinstance e Exception); simpl;
          rewrite ?fallback_attempted_app, Hp; discriminate.
  - intros (Hok & e & t & Hprim & Himp).
    rewrite (main_fallback _ _ _ _ _ Hok Hprim Himp). simpl.
    rewrite fallback_attempted_app, fallback_is_attempted.
    apply orb_true_r.
Qed.

(** C2, as the claim states it, fails, twice.  First, the library is there
    (its import succeeds) and the primary path then raises while it builds
    the client, so the failure is not the missing library; it is an
    [ImportError] all the same, the fallback is attempted and the process
    ends with status 0.  Second, the SDK leaves with [sys.exit(0)] while
    the message is created: the failure is not the missing library, no
    handler of [main] catches a [SystemExit], the fallback is not
    attempted and the process ends with status 0, not with an error. *)
Lemma C2_counterexample :
  (import_twilio broken_client_world = None
   /\ primary broken_client_world ∅ spec_args
      = (Raises late_import_error,
         [EvImportTwilio; EvClient (VStr "AC123") (VStr "tok")])
   /\ fallback_attempted (proc_trace (run broken_client_world ∅ spec_args))
      = true
   /\ posts (proc_trace (run broken_client_world ∅ spec_args))
      = [fallback_post ∅ spec_args]
   /\ proc_status (run broken_client_world ∅ spec_args) = 0)
  /\ (primary exiting_world ∅ spec_args
      = (Raises (MkSystemExit (Some 0) None),
         [EvImportTwilio; EvClient (VStr "AC123") (VStr "tok");
          EvMessagesCreate (VStr "Hello") (VStr "+15550000000")
                           (VStr "+15551234567")])
      /\ isinstance (MkSystemExit (Some 0) None) ImportError = false
      /\ fallback_attempted (proc_trace (run exiting_world ∅ spec_args))
         = false
      /\ proc_status (run exiting_world ∅ spec_args) = 0).
Proof. repeat split. Qed.

(** C2, amended: when the primary path raises a failure that is not an
    instance of [ImportError] (bad credentials, an invalid recipient, a
    network error, a rejection by the vendor), the fallback is never
    attempted, no HTTP request is made, and the process ends with that
    failure: with a status that is not 0 unless the failure is a
    [SystemExit], which ends the process with its own code.  The fallback
    is attempted exactly when the credentials are there and the primary
    path raised an instance of [ImportError], from anywhere in
    [send_with_twilio]. *)
Theorem C2_only_ImportError_selects_fallback w environ args :
  (forall e t,
     primary w environ args = (Raises e, t) ->
     isinstance e ImportError = false ->
     fallback_attempted (proc_trace (run w environ args)) = false
     /\ posts (proc_trace (run w environ args)) = []
     /\ (credentials_ok environ args = true ->
         (main w environ args []).1 = Raises e)
     /\ (isinstance e SystemExit = false ->
         proc_status (run w environ args) <> 0))
  /\ (fallback_attempted (proc_trace (run w environ args)) = true <->
      credentials_ok environ args = true
      /\ exists e t, primary w environ args = (Raises e, t)
                     /\ isinstance e ImportError = true).
Proof.
  split; [|apply fallback_attempted_iff].
  intros e t Hprim Himp.
  pose proof (primary_trace w environ args) as [Hposts Hfb].
  rewrite Hprim in Hposts, Hfb. simpl in Hposts, Hfb.
  rewrite run_main, main_run, Hprim, Himp.
  cbn [proc_trace proc_status].
  destruct (credentials_ok environ args).
  - destruct (isinstance e Exception); cbn [fst snd];
      rewrite ?fallback_attempted_app, ?posts_app, ?Hfb, ?Hposts;
      (repeat split; [apply exit_of_raises]).
  - repeat split; [discriminate | intros _; simpl; lia].
Qed.

Lemma C2_witness :
  fallback_attempted (proc_trace (run rejected_world ∅ spec_args)) = false
  /\ posts (proc_trace (run rejected_world ∅ spec_args)) = []
  /\ proc_status (run rejected_world ∅ spec_args) <> 0.
Proof.
  destruct (proj1 (C2_only_ImportError_selects_fallback rejected_world ∅
                     spec_args)
              (MkExn (Subclass "TwilioRestException"
                        (Subclass "TwilioException" Exception))
                     "HTTP 400 error: Unable to create record" None)
              [EvImportTwilio; EvClient (VStr "AC123") (VStr "tok");
               EvMessagesCreate (VStr "Hello") (VStr "+15550000000")
                                (VStr "+15551234567")]
              eq_refl eq_refl) as (Hfb & Hposts & _ & Hst).
  split; [exact Hfb | split; [exact Hposts | exact (Hst eq_refl)]].
Defined.

(** C9, as the claim states it, fails: an import interrupted from the
    keyboard raises [KeyboardInterrupt], which [except Exception] does not
    catch; [send_with_twilio] raises it as it is, not an [ImportError], and
    the fallback is not attempted. *)
Lemma C9_counterexample :
  import_twilio interrupted_world
    = Some (MkExn KeyboardInterrupt EmptyString None)
  /\ primary interrupted_world ∅ spec_args
     = (Raises (MkExn KeyboardInterrupt EmptyString None), [EvImportTwilio])
  /\ isinstance (MkExn KeyboardInterrupt EmptyString None) ImportError = false
  /\ fallback_attempted (proc_trace (run interrupted_world ∅ spec_args))
     = false.
Proof. repeat split. Qed.

(** C9, amended: if importing the vendor library raises an exception [e]
    that is an instance of [Exception] (a module that is not found, and as
    well a syntax error or an error while the package initialises),
    [send_with_twilio] raises [ImportError] with the message
    twilio package not installed and [e] as its cause, and [main], with the
    credentials there, runs the fallback.  If [e] is not an instance of
    [Exception] (a [KeyboardInterrupt], a [SystemExit]),
    [send_with_twilio] raises [e] itself, unchanged, the fallback is not
    attempted, and [main], with the credentials there, ends with [e] after
    the import alone. *)
Theorem C9_import_failure_becomes_ImportError w (e : exn) :
  import_twilio w = Some e ->
  (isinstance e Exception = true ->
     (forall a tk f to b,
        send_with_twilio w a tk f to b []
        = (Raises (MkExn ImportError "twilio package not installed" (Some e)),
           [EvImportTwilio]))
     /\ (forall environ args,
           credentials_ok environ args = true ->
           fallback_attempted (proc_trace (run w environ args)) = true
           /\ main w environ args []
              = ((fallback w environ args).1,
                 EvImportTwilio :: (fallback w environ args).2)))
  /\ (isinstance e Exception = false ->
        (forall a tk f to b,
           send_with_twilio w a tk f to b [] = (Raises e, [EvImportTwilio]))
        /\ (forall environ args,
              fallback_attempted (proc_trace (run w environ args)) = false
              /\ (credentials_ok environ args = true ->
                  main w environ args [] = (Raises e, [EvImportTwilio])))).
Proof.
  intros Himp. split; intros Hexc.
  - assert (Hsend : forall a tk f to b,
              send_with_twilio w a tk f to b []
              = (Raises (MkExn ImportError "twilio package not installed"
                           (Some e)), [EvImportTwilio])).
    { intros. rewrite send_with_twilio_run, Himp, Hexc. reflexivity. }
    split; [exact Hsend|].
    intros environ args Hok.
    assert (Hprim : primary w environ args
                    = (Raises (MkExn ImportError
                                 "twilio package not installed" (Some e)),
                       [EvImportTwilio]))
      by apply Hsend.
    split.
    + apply fallback_attempted_iff. split; [exact Hok|].
      eexists _, _. split; [exact Hprim | reflexivity].
    + rewrite (main_fallback _ _ _ _ _ Hok Hprim eq_refl). reflexivity.
  - assert (Hsend : forall a tk f to b,
              send_with_twilio w a tk f to b [] = (Raises e, [EvImportTwilio])).
    { intros. rewrite send_with_twilio_run, Himp, Hexc. reflexivity. }
    assert (Hnot : isinstance e ImportError = false).
    { apply not_true_iff_false. intros H.
      apply issubclass_ImportError_Exception in H.
      unfold isinstance in Hexc. congruence. }
    split; [exact Hsend|].
    intros environ args.
    assert (Hprim : primary w environ args = (Raises e, [EvImportTwilio]))
      by apply Hsend.
    split.
    + apply not_true_iff_false. intros Hfb.
      apply fallback_attempted_iff in Hfb
        as (_ & e0 & t0 & Hprim0 & Himp0).
      rewrite Hprim in Hprim0. injection Hprim0 as <- <-. congruence.
    + intros Hok. rewrite main_run, Hok, Hprim, Hnot, Hexc. reflexivity.
Qed.

Lemma C9_witness :
  primary broken_package_world ∅ spec_args
  = (Raises (MkExn ImportError "twilio package not installed"
               (Some (MkExn (Subclass "SyntaxError" Exception)
                        "invalid syntax" None))),
     [EvImportTwilio])
  /\ main interrupted_world ∅ spec_args []
     = (Raises (MkExn KeyboardInterrupt EmptyString None), [EvImportTwilio]).
Proof.
  split.
  - apply (proj1 (proj1 (C9_import_failure_becomes_ImportError
                           broken_package_world
                           (MkExn (Subclass "SyntaxError" Exception)
                              "invalid syntax" None)
                           eq_refl) eq_refl)).
  - apply (proj2 (proj2 (C9_import_failure_becomes_ImportError
                           interrupted_world
                           (MkExn KeyboardInterrupt EmptyString None)
                           eq_refl) eq_refl) ∅ spec_args).
    reflexivity.
Defined.

(** C10: [main] tells the missing library by the class [ImportError]
    alone.  When the import of the library succeeds and the construction
    of the client, or the creation of the message, raises an instance of
    [ImportError], the fallback is run all the same: the process goes on
    with the body of [except ImportError:] after the events of the primary
    path, and its result is the result of the fallback, not the failure of
    the primary path. *)
Theorem C10_late_ImportError_selects_fallback w environ args (e : exn) :
  credentials_ok environ args = true ->
  import_twilio w = None ->
  client_init w (resolve_account_sid environ args)
                (resolve_auth_token environ args) = Some e
  \/ (client_init w (resolve_account_sid environ args)
                    (resolve_auth_token environ args) = None
      /\ messages_create w (VStr (args_body args))
                           (resolve_from_number environ args)
                           (VStr (args_to args)) = inl e) ->
  isinstance e ImportError = true ->
  (primary w environ args).1 = Raises e
  /\ fallback_attempted (proc_trace (run w environ args)) = true
  /\ main w environ args []
     = ((fallback w environ args).1,
        (primary w environ args).2 ++ (fallback w environ args).2)
  /\ proc_status (run w environ args)
     = (exit_of (fallback w environ args).1).2.
Proof.
  intros Hok Himport Hlate Himp.
  assert (Hprim : exists t, primary w environ args = (Raises e, t)).
  { unfold primary. rewrite send_with_twilio_run, Himport.
    destruct Hlate as [-> | [-> ->]]; eexists; reflexivity. }
  destruct Hprim as [t Hprim].
  pose proof (main_fallback _ _ _ _ _ Hok Hprim Himp) as Hmain.
  rewrite run_main, Hmain, Hprim. simpl. repeat split.
  rewrite fallback_attempted_app, fallback_is_attempted. apply orb_true_r.
Qed.

Lemma C10_witness :
  ((primary broken_client_world ∅ spec_args).1 = Raises late_import_error
   /\ fallback_attempted (proc_trace (run broken_client_world ∅ spec_args))
      = true
   /\ proc_status (run broken_client_world ∅ spec_args) = 0)
  /\ fallback_attempted (proc_trace (run broken_create_world ∅ spec_args))
     = true.
Proof.
  split.
  - pose proof (C10_late_ImportError_selects_fallback broken_client_world ∅
                  spec_args late_import_error
                  eq_refl eq_refl (or_introl eq_refl) eq_refl)
      as (Hprim & Hfb & _ & Hst).
    split; [exact Hprim | split; [exact Hfb | exact Hst]].
  - apply (C10_late_ImportError_selects_fallback broken_create_world ∅
             spec_args
             (MkExn ModuleNotFoundError "No module named 'aiohttp'" None));
      [reflexivity | reflexivity | right; split; reflexivity | reflexivity].
Defined.

(** ** What is checked before anything is sent *)

(** C7, as the claim states it, fails: with the credentials there and
    [--to] and [--body] given as empty strings, the HTTP request is sent
    with the fields To and Body empty, and so is the SDK's request when the
    SDK is installed. *)
Lemma C7_counterexample :
  args_to empty_message_args = EmptyString
  /\ args_body empty_message_args = EmptyString
  /\ posts (proc_trace (run (no_sdk_world created_response) ∅
                            empty_message_args))
     = [EvPost "https://api.twilio.com/2010-04-01/Accounts/AC123/Messages.json"
               [("From", VStr "+15550000000");
                ("To", VStr EmptyString);
                ("Body", VStr EmptyString)]
               (VStr "AC123", VStr "tok") 30]
  /\ proc_trace (run sdk_world ∅ empty_message_args)
     = [EvImportTwilio;
        EvClient (VStr "AC123") (VStr "tok");
        EvMessagesCreate (VStr EmptyString) (VStr "+15550000000")
                         (VStr EmptyString);
        EvPrint [PStr "Sent via twilio package. Result:";
                 PDict [("sid", VStr "SM1"); ("status", VStr "queued")]]].
Proof. repeat split. Qed.

(** C7, amended: in every invocation the account id, the auth token and
    the sender number are strings that are not empty before anything is
    done to the outside, a network call in particular: whenever the trace
    holds an event, the three resolved credentials are not empty.  The
    recipient and the body are not checked. *)
Theorem C7_credentials_before_any_call w environ args (ev : event) :
  In ev (proc_trace (run w environ args)) ->
  non_empty (resolve_account_sid environ args)
  /\ non_empty (resolve_auth_token environ args)
  /\ non_empty (resolve_from_number environ args).
Proof.
  rewrite run_main, main_run. unfold non_empty.
  destruct (credentials_ok environ args) eqn:Hok; [|intros []].
  intros _. unfold credentials_ok in Hok.
  apply andb_true_iff in Hok as [Hok Hfrom].
  apply andb_true_iff in Hok as [Hsid Htok].
  rewrite <- !truthy_true_iff. auto.
Qed.

Lemma C7_witness :
  non_empty (resolve_account_sid ∅ empty_message_args)
  /\ non_empty (resolve_auth_token ∅ empty_message_args)
  /\ non_empty (resolve_from_number ∅ empty_message_args).
Proof.
  apply (C7_credentials_before_any_call sdk_world ∅ empty_message_args
           EvImportTwilio).
  left. reflexivity.
Defined.

(** * Further properties of the code *)

(** ** [main], case by case *)

(** [main] from the results of the two transports. *)
Lemma main_cases w environ args :
  main w environ args [] =
  if credentials_ok environ args then
    match primary w environ args with
    | (Returns r, t) =>
        (Returns tt,
         t ++ [EvPrint [PStr "Sent via twilio package. Result:"; PDict r]])
    | (Raises e, t) =>
        if isinstance e ImportError then
          match secondary w environ args with
          | (Returns j, t') =>
              (Returns tt,
               t ++ fallback_announcement
                    :: t' ++ [EvPrint [PStr "Sent via HTTP API. Response:"];
                              EvPrint [PJson j]])
          | (Raises e', t') =>
              (Raises e',
               t ++ fallback_announcement
                    :: t' ++ (if isinstance e' Exception
                              then [fallback_failure_report e'] else []))
          end
        else
          (Raises e,
           t ++ (if isinstance e Exception
                 then [primary_failure_report e] else []))
    end
  else (Raises (MkExn SystemExit missing_credentials None), []).
Proof.
  rewrite main_run.
  destruct (credentials_ok environ args); [|reflexivity].
  destruct (primary w environ args) as [[r|e] t]; [reflexivity|].
  destruct (isinstance e ImportError).
  - rewrite framed_except_ImportError.
    fold (fallback w environ args). rewrite fallback_run.
    destruct (secondary w environ args) as [[j|e'] t']; [reflexivity|].
    destruct (isinstance e' Exception); simpl; [reflexivity|].
    rewrite app_nil_r. reflexivity.
  - destruct (isinstance e Exception); simpl; [reflexivity|].
    rewrite app_nil_r. reflexivity.
Qed.

(** The trace of the primary path, by what the SDK answers. *)
Lemma primary_cases w environ args :
  let a := resolve_account_sid environ args in
  let tk := resolve_auth_token environ args in
  let f := resolve_from_number environ args in
  let to := VStr (args_to args) in
  let b := VStr (args_body args) in
  primary w environ args =
  match import_twilio w with
  | Some e =>
      if isinstance e Exception
      then (Raises (MkExn ImportError "twilio package not installed" (Some e)),
            [EvImportTwilio])
      else (Raises e, [EvImportTwilio])
  | None =>
      match client_init w a tk with
      | Some e => (Raises e, [EvImportTwilio; EvClient a tk])
      | None =>
          match messages_create w b f to with
          | inl e =>
              (Raises e,
               [EvImportTwilio; EvClient a tk; EvMessagesCreate b f to])
          | inr m =>
              (Returns [("sid", sid m); ("status", status m)],
               [EvImportTwilio; EvClient a tk; EvMessagesCreate b f to])
          end
      end
  end.
Proof. intros. unfold primary. apply send_with_twilio_run. Qed.

(** Every case of a run: the credentials, the answers of the SDK, the
    class of what it raised, the answers of [requests]. *)
Ltac run_cases w environ args :=
  rewrite ?run_main, ?main_cases;
  rewrite ?primary_cases, ?secondary_run;
  destruct (credentials_ok environ args) eqn:?;
  [ destruct (import_twilio w) as [?e|] eqn:?;
    [ destruct (isinstance e Exception) eqn:?
    | destruct (client_init w _ _) as [?e|] eqn:?;
      [ | destruct (messages_create w _ _ _) as [?e|?m] eqn:? ] ];
    try match goal with
        | |- context [isinstance ?x ImportError] =>
            destruct (isinstance x ImportError) eqn:?
        end;
    try (destruct (import_requests w) as [?e|] eqn:?;
         [ | destruct (requests_post w _ _ _ 30) as [?e|?resp] eqn:?;
             [ | case_bool_decide;
                 [ | destruct (resp_json resp) as [?e|?j] eqn:? ] ] ]);
    repeat match goal with
           | |- context [isinstance ?x Exception] =>
               destruct (isinstance x Exception) eqn:?
           end
  | ].

Lemma truthy_py_or (a b : val) : truthy (py_or a b) = truthy a || truthy b.
Proof. unfold py_or. destruct (truthy a) eqn:E; simpl; [exact E | reflexivity]. Qed.

Lemma truthy_getenv environ k :
  truthy (getenv environ k) = true <->
  exists v, environ !! k = Some v /\ v <> EmptyString.
Proof.
  rewrite truthy_true_iff. unfold getenv.
  destruct (environ !! k) as [v|]; split.
  - intros (s & [= ->] & Hs). exists s. split; [reflexivity | exact Hs].
  - intros (s & [= ->] & Hs). exists s. split; [reflexivity | exact Hs].
  - intros (s & H & _). discriminate.
  - intros (s & H & _). discriminate.
Qed.

Lemma truthy_resolve flag environ k :
  truthy (py_or flag (getenv environ k)) = true <->
  has_value flag (environ !! k).
Proof.
  rewrite truthy_py_or, orb_true_iff, truthy_getenv, truthy_true_iff.
  reflexivity.
Qed.

(** ** Configuration: when the program goes on to send *)

(** X1: the program gets past its guard exactly when each of the three
    credentials has a flag that is not empty or an environment variable
    that is set and not empty; and exactly then it does something to the
    outside, starting with the import of the SDK. *)
Theorem X1_guard_iff w environ args :
  (credentials_ok environ args = true <-> all_have_values environ args)
  /\ (proc_trace (run w environ args) <> [] <-> all_have_values environ args)
  /\ (all_have_values environ args ->
      exists rest, proc_trace (run w environ args) = EvImportTwilio :: rest).
Proof.
  assert (Hiff : credentials_ok environ args = true
                 <-> all_have_values environ args).
  { unfold credentials_ok, all_have_values,
      resolve_account_sid, resolve_auth_token, resolve_from_number.
    rewrite !andb_true_iff, !truthy_resolve. tauto. }
  assert (Hhead : credentials_ok environ args = true ->
                  exists rest,
                    proc_trace (run w environ args) = EvImportTwilio :: rest).
  { intros Hok. run_cases w environ args; simpl; try (eexists; reflexivity).
    discriminate. }
  split; [exact Hiff|]. split.
  - rewrite <- Hiff. split.
    + intros Hne. destruct (credentials_ok environ args) eqn:Hok;
        [reflexivity|].
      exfalso. apply Hne. rewrite run_main, main_cases, Hok. reflexivity.
    + intros Hok. destruct (Hhead Hok) as [rest ->]. discriminate.
  - intros H. apply Hhead, Hiff, H.
Qed.

(** ** What a run never does *)

(** X2: no call is ever repeated.  In every run, whatever the outside
    answers, the trace holds at most one HTTP request, at most one creation
    of a message by the SDK and at most one construction of the client. *)
Theorem X2_no_call_twice w environ args :
  (length (posts (proc_trace (run w environ args))) <= 1)%nat
  /\ (length (List.filter is_create (proc_trace (run w environ args))) <= 1)%nat
  /\ (length (List.filter is_client (proc_trace (run w environ args))) <= 1)%nat.
Proof.
  run_cases w environ args; simpl; repeat split; lia.
Qed.

(** X3: the SDK's request and the HTTP request are both made in one run
    only when [messages.create] itself raised an instance of [ImportError],
    after the import and the client succeeded: the one case where a
    message can go out twice. *)
Theorem X3_both_transports w environ args :
  existsb is_create (proc_trace (run w environ args)) = true ->
  posts (proc_trace (run w environ args)) <> [] ->
  import_twilio w = None
  /\ client_init w (resolve_account_sid environ args)
                   (resolve_auth_token environ args) = None
  /\ exists e,
       messages_create w (VStr (args_body args))
                         (resolve_from_number environ args)
                         (VStr (args_to args)) = inl e
       /\ isinstance e ImportError = true.
Proof.
  run_cases w environ args; simpl; intros Hcreate Hposts;
    try discriminate; try (exfalso; apply Hposts; reflexivity);
    repeat split; eauto.
Qed.

Lemma X3_witness :
  import_twilio broken_create_world = None
  /\ client_init broken_create_world (resolve_account_sid ∅ spec_args)
                 (resolve_auth_token ∅ spec_args) = None
  /\ exists e,
       messages_create broken_create_world (VStr (args_body spec_args))
                       (resolve_from_number ∅ spec_args)
                       (VStr (args_to spec_args)) = inl e
       /\ isinstance e ImportError = true.
Proof.
  apply (X3_both_transports broken_create_world ∅ spec_args);
    [reflexivity | discriminate].
Defined.

Lemma main_entry_parsed w environ args :
  main_entry w environ (inr args) [] = main w environ args [].
Proof.
  unfold main_entry, mbind, M_bind, bind. simpl.
  destruct (main w environ args []) as [[u|e] t]; reflexivity.
Qed.

Lemma main_entry_exits w environ e :
  main_entry w environ (inl e) [] = (Raises e, []).
Proof. reflexivity. Qed.

(** X4: [main] reaches its end (it returns, and the interpreter then ends
    with status 0 and nothing on stderr) exactly when [parse_args]
    returned a namespace, the credentials are there and one transport
    returned: the SDK path, or, after an [ImportError] from the SDK path,
    the HTTP path. *)
Theorem X4_returns_iff w environ (parsed : exn + Namespace) :
  ((main_entry w environ parsed []).1 = Returns tt <->
   exists args,
     parsed = inr args
     /\ credentials_ok environ args = true
     /\ ((exists r t, primary w environ args = (Returns r, t))
         \/ (exists e t j t',
               primary w environ args = (Raises e, t)
               /\ isinstance e ImportError = true
               /\ secondary w environ args = (Returns j, t'))))
  /\ ((main_entry w environ parsed []).1 = Returns tt ->
      exit_of (main_entry w environ parsed []).1 = (ErrNothing, 0)).
Proof.
  split; [|intros ->; reflexivity].
  destruct parsed as [e0|args].
  { rewrite main_entry_exits. simpl.
    split; [discriminate | intros (args & [=] & _)]. }
  rewrite main_entry_parsed, main_cases.
  destruct (credentials_ok environ args) eqn:Hok; simpl;
    [|split; [discriminate | intros (a0 & [= <-] & H & _); congruence]].
  destruct (primary w environ args) as [[r|e] t] eqn:Hprim; simpl.
  - split; [|reflexivity]. intros _. exists args.
    split; [reflexivity|]. split; [exact Hok|].
    left. eexists _, _. exact Hprim.
  - destruct (isinstance e ImportError) eqn:Himp.
    + destruct (secondary w environ args) as [[j|e'] t'] eqn:Hsec; simpl.
      * split; [|reflexivity]. intros _. exists args.
        split; [reflexivity|]. split; [exact Hok|].
        right. eexists _, _, _, _.
        split; [exact Hprim|]. split; [exact Himp | exact Hsec].
      * split; [discriminate|].
        intros (a0 & [= <-] & _ & [(r0 & t0 & H) | (e0 & t0 & j0 & t0' & _ & _ & H)]).
        -- rewrite Hprim in H. discriminate.
        -- rewrite Hsec in H. discriminate.
    + split; [discriminate|].
      intros (a0 & [= <-] & _ & [(r0 & t0 & H) | (e0 & t0 & j0 & t0' & H & H' & _)]).
      * rewrite Hprim in H. discriminate.
      * rewrite Hprim in H. injection H as <- <-. congruence.
Qed.

(** X12: [main] never reaches its end without a network call: whenever it
    returns, [parse_args] had returned a namespace and the trace holds the
    SDK's creation of the message or the HTTP request. *)
Theorem X12_success_needs_a_call w environ (parsed : exn + Namespace) :
  (main_entry w environ parsed []).1 = Returns tt ->
  (exists args, parsed = inr args)
  /\ existsb is_network_call (main_entry w environ parsed []).2 = true.
Proof.
  destruct parsed as [e0|args]; [rewrite main_entry_exits; discriminate|].
  rewrite main_entry_parsed. intros Hret.
  split; [exists args; reflexivity|]. revert Hret.
  run_cases w environ args; cbn [fst snd]; intros Hret;
    first [ discriminate | reflexivity ].
Qed.

Lemma X12_witness :
  (exists args, @inr exn Namespace spec_args = inr args)
  /\ existsb is_network_call (main_entry sdk_world ∅ (inr spec_args) []).2
     = true.
Proof.
  apply (X12_success_needs_a_call sdk_world ∅ (inr spec_args)). reflexivity.
Defined.

(** X11: the transports only ever get the resolved configuration.  In
    every run, a client is built with the resolved account id and auth
    token, a message is created with the body, the resolved sender and the
    recipient of the command line, and an HTTP request is the request of
    the fallback on the resolved credentials. *)
Theorem X11_events_carry_resolved w environ args (ev : event) :
  In ev (proc_trace (run w environ args)) ->
  carries_resolved environ args ev.
Proof.
  run_cases w environ args; simpl; intros Hin;
    repeat match goal with
           | H : _ \/ _ |- _ => destruct H as [<- | H]
           | H : False |- _ => destruct H
           end;
    simpl; auto.
Qed.

Lemma X11_witness :
  carries_resolved full_environ bare_args
    (EvPost "https://api.twilio.com/2010-04-01/Accounts/ACenv/Messages.json"
            [("From", VStr "+15557654321");
             ("To", VStr "+15551234567");
             ("Body", VStr "Hello")]
            (VStr "ACenv", VStr "envtok") 30).
Proof.
  apply (X11_events_carry_resolved (no_sdk_world created_response)
           full_environ bare_args).
  right. right. right. left. reflexivity.
Defined.

(** ** Failures and how they are reported *)

(** X5: a failure of the SDK path that is not an [ImportError] ends the
    process with that very exception.  When it is an instance of
    [Exception], [main] has printed one line after the events of the SDK
    path, the report with [str(e)]; when it is not (a keyboard interrupt),
    [main] prints nothing.  The status is not 0 unless the exception is a
    [SystemExit], which ends the process with its own code. *)
Theorem X5_primary_failure_reported w environ args (e : exn) (t : trace) :
  credentials_ok environ args = true ->
  primary w environ args = (Raises e, t) ->
  isinstance e ImportError = false ->
  (main w environ args []).1 = Raises e
  /\ (isinstance e SystemExit = false ->
      proc_status (run w environ args) <> 0)
  /\ proc_trace (run w environ args)
     = t ++ (if isinstance e Exception
             then [EvPrint [PStr "Failed to send via twilio package:";
                            PStr (exn_str e)]]
             else []).
Proof.
  intros Hok Hprim Himp.
  rewrite run_main, main_cases, Hok, Hprim, Himp.
  cbn [proc_trace proc_status fst snd].
  repeat split. apply exit_of_raises.
Qed.

Lemma X5_witness :
  proc_trace (run rejected_world ∅ spec_args)
  = [EvImportTwilio;
     EvClient (VStr "AC123") (VStr "tok");
     EvMessagesCreate (VStr "Hello") (VStr "+15550000000")
                      (VStr "+15551234567");
     EvPrint [PStr "Failed to send via twilio package:";
              PStr "HTTP 400 error: Unable to create record"]].
Proof.
  apply (X5_primary_failure_reported rejected_world ∅ spec_args
           (MkExn (Subclass "TwilioRestException"
                     (Subclass "TwilioException" Exception))
                  "HTTP 400 error: Unable to create record" None)
           [EvImportTwilio; EvClient (VStr "AC123") (VStr "tok");
            EvMessagesCreate (VStr "Hello") (VStr "+15550000000")
                             (VStr "+15551234567")]);
    reflexivity.
Defined.

(** X9: whatever makes [send_with_requests] raise, on the fallback path
    the process ends with that very exception, and with a status that is
    not 0 unless the exception is a [SystemExit].
    The trace is the events of the SDK path, the announcement of the
    fallback, the events of [send_with_requests] and, when the exception
    is an instance of [Exception], the report with [str(e)]. *)
Theorem X9_fallback_failure_reported w environ args e t (e' : exn) t' :
  credentials_ok environ args = true ->
  primary w environ args = (Raises e, t) ->
  isinstance e ImportError = true ->
  secondary w environ args = (Raises e', t') ->
  (main w environ args []).1 = Raises e'
  /\ (isinstance e' SystemExit = false ->
      proc_status (run w environ args) <> 0)
  /\ proc_trace (run w environ args)
     = t ++ EvPrint [PStr "twilio package not installed; attempting HTTP fallback using requests."]
          :: t' ++ (if isinstance e' Exception
                    then [EvPrint [PStr "Failed to send message via HTTP API:";
                                   PStr (exn_str e')]]
                    else []).
Proof.
  intros Hok Hprim Himp Hsec.
  rewrite run_main, main_cases, Hok, Hprim, Himp, Hsec.
  cbn [proc_trace proc_status fst snd].
  repeat split. apply exit_of_raises.
Qed.

Lemma X9_witness :
  (main offline_world ∅ spec_args []).1 = Raises connection_error
  /\ proc_status (run offline_world ∅ spec_args) <> 0
  /\ proc_trace (run offline_world ∅ spec_args)
     = [EvImportTwilio;
        EvPrint [PStr "twilio package not installed; attempting HTTP fallback using requests."];
        EvImportRequests;
        fallback_post ∅ spec_args;
        EvPrint [PStr "Failed to send message via HTTP API:";
                 PStr "Failed to establish a new connection"]].
Proof.
  destruct (X9_fallback_failure_reported offline_world ∅ spec_args
              (MkExn ImportError "twilio package not installed"
                 (Some (MkExn ModuleNotFoundError "No module named 'twilio'"
                          None)))
              [EvImportTwilio] connection_error
              [EvImportRequests; fallback_post ∅ spec_args]
              eq_refl eq_refl eq_refl eq_refl) as (Hres & Hst & Htrace).
  split; [exact Hres | split; [exact (Hst eq_refl) | exact Htrace]].
Defined.

(** X6: when [import requests] fails on the fallback path, no HTTP request
    is made: [send_with_requests] raises the error of the import after its
    first step, and the process ends with that error, and with a status
    that is not 0 unless the error is a [SystemExit]. *)
Theorem X6_requests_missing w environ args e t (e' : exn) :
  credentials_ok environ args = true ->
  primary w environ args = (Raises e, t) ->
  isinstance e ImportError = true ->
  import_requests w = Some e' ->
  secondary w environ args = (Raises e', [EvImportRequests])
  /\ posts (proc_trace (run w environ args)) = []
  /\ existsb is_network_call (proc_trace (run w environ args))
     = existsb is_network_call t
  /\ (main w environ args []).1 = Raises e'
  /\ (isinstance e' SystemExit = false ->
      proc_status (run w environ args) <> 0).
Proof.
  intros Hok Hprim Himp Hreq.
  assert (Hsec : secondary w environ args = (Raises e', [EvImportRequests])).
  { rewrite secondary_run, Hreq. reflexivity. }
  pose proof (primary_trace w environ args) as [Hposts _].
  rewrite Hprim in Hposts. simpl in Hposts.
  rewrite run_main, main_cases, Hok, Hprim, Himp, Hsec.
  cbn [proc_trace proc_status fst snd].
  repeat split.
  - rewrite posts_app, Hposts. destruct (isinstance e' Exception); reflexivity.
  - rewrite List.existsb_app. destruct (isinstance e' Exception); simpl;
      apply orb_false_r.
  - apply exit_of_raises.
Qed.

Lemma X6_witness :
  secondary nothing_installed_world ∅ spec_args
  = (Raises (MkExn ModuleNotFoundError "No module named 'requests'" None),
     [EvImportRequests])
  /\ posts (proc_trace (run nothing_installed_world ∅ spec_args)) = []
  /\ existsb is_network_call (proc_trace (run nothing_installed_world ∅
                                              spec_args))
     = existsb is_network_call [EvImportTwilio]
  /\ (main nothing_installed_world ∅ spec_args []).1
     = Raises (MkExn ModuleNotFoundError "No module named 'requests'" None)
  /\ proc_status (run nothing_installed_world ∅ spec_args) <> 0.
Proof.
  destruct (X6_requests_missing nothing_installed_world ∅ spec_args
              (MkExn ImportError "twilio package not installed"
                 (Some (MkExn ModuleNotFoundError "No module named 'twilio'"
                          None)))
              [EvImportTwilio]
              (MkExn ModuleNotFoundError "No module named 'requests'" None)
              eq_refl eq_refl eq_refl eq_refl)
    as (Hsec & Hposts & Hcalls & Hres & Hst).
  split; [exact Hsec|]. split; [exact Hposts|]. split; [exact Hcalls|].
  split; [exact Hres | exact (Hst eq_refl)].
Defined.

(** X7: [send_with_requests] raises for the status codes 400 to 599 and
    for no other: with any other code, a 3xx that was not followed as well
    as a 2xx, it returns what [resp.json()] returns, and when that is a
    parsed body the process prints it and ends with status 0. *)
Theorem X7_other_status_is_success w environ args e t (resp : response) :
  credentials_ok environ args = true ->
  primary w environ args = (Raises e, t) ->
  isinstance e ImportError = true ->
  import_requests w = None ->
  requests_post w (fallback_url environ args) (fallback_form environ args)
                  (fallback_auth environ args) 30 = inr resp ->
  ~ (400 <= status_code resp < 600) ->
  (secondary w environ args).1
    = match resp_json resp with
      | inr j => Returns j
      | inl e' => Raises e'
      end
  /\ forall j, resp_json resp = inr j ->
       proc_status (run w environ args) = 0
       /\ proc_trace (run w environ args)
          = t ++ [EvPrint [PStr "twilio package not installed; attempting HTTP fallback using requests."];
                  EvImportRequests;
                  fallback_post environ args;
                  EvPrint [PStr "Sent via HTTP API. Response:"];
                  EvPrint [PJson j]].
Proof.
  intros Hok Hprim Himp Hreq Hpost Hcode.
  pose proof (secondary_run w environ args) as Hsec.
  rewrite Hreq, Hpost, bool_decide_eq_false_2 in Hsec by exact Hcode.
  split.
  - rewrite Hsec. destruct (resp_json resp); reflexivity.
  - intros j Hj. rewrite Hj in Hsec.
    rewrite run_main, main_cases, Hok, Hprim, Himp, Hsec. simpl.
    split; reflexivity.
Qed.

Lemma X7_witness :
  proc_status (run (no_sdk_world found_response) ∅ spec_args) = 0
  /\ proc_trace (run (no_sdk_world found_response) ∅ spec_args)
     = [EvImportTwilio;
        EvPrint [PStr "twilio package not installed; attempting HTTP fallback using requests."];
        EvImportRequests;
        fallback_post ∅ spec_args;
        EvPrint [PStr "Sent via HTTP API. Response:"];
        EvPrint [PJson (JObj [])]].
Proof.
  refine (proj2 (X7_other_status_is_success (no_sdk_world found_response)
                   ∅ spec_args
                   (MkExn ImportError "twilio package not installed"
                      (Some (MkExn ModuleNotFoundError
                               "No module named 'twilio'" None)))
                   [EvImportTwilio]
                   (found_response (fallback_url ∅ spec_args))
                   eq_refl eq_refl eq_refl eq_refl eq_refl _)
                (JObj []) eq_refl).
  simpl. lia.
Defined.

(** X8: a request the endpoint accepted can still end the process with a
    failure.  When the response is not raised by its status code and
    [resp.json()] raises (the body is not JSON), the one HTTP request was
    made, and the process ends with the error of [resp.json()], and with
    a status that is not 0 unless that error is a [SystemExit]. *)
Theorem X8_accepted_but_unparsed w environ args e t (resp : response)
    (e' : exn) :
  credentials_ok environ args = true ->
  primary w environ args = (Raises e, t) ->
  isinstance e ImportError = true ->
  import_requests w = None ->
  requests_post w (fallback_url environ args) (fallback_form environ args)
                  (fallback_auth environ args) 30 = inr resp ->
  ~ (400 <= status_code resp < 600) ->
  resp_json resp = inl e' ->
  posts (proc_trace (run w environ args)) = [fallback_post environ args]
  /\ (main w environ args []).1 = Raises e'
  /\ (isinstance e' SystemExit = false ->
      proc_status (run w environ args) <> 0).
Proof.
  intros Hok Hprim Himp Hreq Hpost Hcode Hjson.
  pose proof (secondary_run w environ args) as Hsec.
  rewrite Hreq, Hpost, bool_decide_eq_false_2, Hjson in Hsec by exact Hcode.
  pose proof (primary_trace w environ args) as [Hposts _].
  rewrite Hprim in Hposts. simpl in Hposts.
  rewrite run_main, main_cases, Hok, Hprim, Himp, Hsec.
  cbn [proc_trace proc_status fst snd].
  repeat split.
  - rewrite posts_app, Hposts. destruct (isinstance e' Exception); reflexivity.
  - apply exit_of_raises.
Qed.

Lemma X8_witness :
  posts (proc_trace (run (no_sdk_world not_json_response) ∅ spec_args))
  = [fallback_post ∅ spec_args]
  /\ (main (no_sdk_world not_json_response) ∅ spec_args []).1
     = Raises json_decode_error
  /\ proc_status (run (no_sdk_world not_json_response) ∅ spec_args) <> 0.
Proof.
  assert (Hcode : ~ (400 <= status_code
                              (not_json_response (fallback_url ∅ spec_args))
                     < 600)) by (simpl; lia).
  destruct (X8_accepted_but_unparsed (no_sdk_world not_json_response)
              ∅ spec_args
              (MkExn ImportError "twilio package not installed"
                 (Some (MkExn ModuleNotFoundError
                          "No module named 'twilio'" None)))
              [EvImportTwilio]
              (not_json_response (fallback_url ∅ spec_args))
              json_decode_error
              eq_refl eq_refl eq_refl eq_refl eq_refl Hcode eq_refl)
    as (Hposts & Hres & Hst).
  split; [exact Hposts | split; [exact Hres | exact (Hst eq_refl)]].
Defined.

(** ** The order of the SDK calls *)

(** X10: [send_with_twilio] imports, then builds the client, then creates
    the message, and stops at the first step that raises: its trace is a
    prefix of these three events, the client is built exactly when the
    import succeeded, and the message is created exactly when the import
    and the client succeeded.  It never makes an HTTP request. *)
Theorem X10_sdk_call_order w (a tk f to b : val) :
  (send_with_twilio w a tk f to b []).2
    `prefix_of` [EvImportTwilio; EvClient a tk; EvMessagesCreate b f to]
  /\ (existsb is_client (send_with_twilio w a tk f to b []).2 = true
      <-> import_twilio w = None)
  /\ (existsb is_create (send_with_twilio w a tk f to b []).2 = true
      <-> import_twilio w = None /\ client_init w a tk = None)
  /\ posts (send_with_twilio w a tk f to b []).2 = [].
Proof.
  rewrite send_with_twilio_run.
  destruct (import_twilio w) as [e|].
  - destruct (isinstance e Exception); simpl;
      (split; [eexists; reflexivity|]);
      repeat split; try discriminate; intros; intuition discriminate.
  - destruct (client_init w a tk) as [e|]; simpl.
    + split; [eexists; reflexivity|].
      repeat split; try discriminate; intros; intuition discriminate.
    + destruct (messages_create w b f to); simpl;
        (split; [exists []; reflexivity|]); repeat split.
Qed.
